(** * E-Consult vector-search front end: the page controller [frontend/script.js]

    The script is a set of asynchronous event handlers.  Each handler reads
    and writes a few properties of page elements, issues [fetch] calls,
    decodes the JSON answer and branches on it, with [try]/[catch]/[finally]
    around the network part.

    The embedding keeps that shape:
    - JavaScript strings are sequences of UTF-16 code units;
    - a decoded JSON document is a tree of JavaScript values, with the
      language's truthiness, [||], [&&], property reads and string
      conversion;
    - a handler is a computation in a reader/state/exception monad [M]:
      the reader part is everything outside the script (the server, the
      user answering [confirm], the engine's own messages), the state is
      the page together with the list of requests issued so far and the
      console, and an abrupt completion is a thrown error;
    - one invocation of a handler is run on its own, from an arbitrary
      page, against an arbitrary outside world. *)

From Stdlib Require Import List NArith Ascii String DecimalString Bool Lia Arith.
Import ListNotations.

Set Implicit Arguments.
Set Warnings "-register-all".

(** ** Strings *)

Module JsString.

(** A string is its sequence of code units. *)
Definition jsstring := list N.

(** A literal of the script, written in ASCII. *)
Definition lit (s : string) : jsstring :=
  map N_of_ascii (list_ascii_of_string s).

(** The double quote that the script's templates contain. *)
Definition dq : jsstring := [34%N].

Definition eqb (a b : jsstring) : bool :=
  if list_eq_dec N.eq_dec a b then true else false.

(** WhiteSpace and LineTerminator code points, the ones
    [String.prototype.trim] strips. *)
Definition is_space (c : N) : bool :=
  match c with
  | 9 | 10 | 11 | 12 | 13 | 32 | 160 | 5760
  | 8232 | 8233 | 8239 | 8287 | 12288 | 65279 => true
  | _ => (8192 <=? c) && (c <=? 8202)
  end%N.

Fixpoint trim_start (s : jsstring) : jsstring :=
  match s with
  | c :: rest => if is_space c then trim_start rest else s
  | [] => []
  end.

(** [s.trim()] *)
Definition trim (s : jsstring) : jsstring :=
  rev (trim_start (rev (trim_start s))).

(** Decimal text of a natural number, as in [`${response.status}`]. *)
Definition decimal (n : N) : jsstring :=
  lit (NilZero.string_of_uint (N.to_uint n)).

End JsString.
Import JsString.

(** ** Values *)

Module JsValue.

Inductive sign := Negative | Zero | Positive.

(** A number, as far as the script can observe one: the text that
    string conversion gives it, and how it compares with [0]. *)
Record number := { num_text : jsstring; num_sign : sign }.

Definition number_of_nat (n : nat) : number :=
  {| num_text := decimal (N.of_nat n);
     num_sign := match n with O => Zero | S _ => Positive end |}.

(** What [JSON.parse] builds, and [undefined] for what a property read
    does not find. *)
Inductive value :=
| VUndefined
| VNull
| VBool (b : bool)
| VNum (n : number)
| VStr (s : jsstring)
| VArr (elements : list value)
| VObj (members : list (jsstring * value)).

(** ToBoolean *)
Definition truthy (v : value) : bool :=
  match v with
  | VUndefined | VNull => false
  | VBool b => b
  | VNum n => match num_sign n with Zero => false | _ => true end
  | VStr s => match s with [] => false | _ => true end
  | VArr _ | VObj _ => true
  end.

Definition nullish (v : value) : bool :=
  match v with VUndefined | VNull => true | _ => false end.

(** [a || b] *)
Definition js_or (a b : value) : value := if truthy a then a else b.

Fixpoint join (sep : jsstring) (parts : list jsstring) : jsstring :=
  match parts with
  | [] => []
  | [p] => p
  | p :: rest => p ++ sep ++ join sep rest
  end.

(** A member of a decoded object; when the text repeated a name the
    last occurrence is the one the object holds. *)
Definition member (key : jsstring) (members : list (jsstring * value)) : value :=
  fold_left (fun found kv => if eqb (fst kv) key then snd kv else found)
    members VUndefined.

(** Whether a decoded object holds a member of that name, whatever its
    value. *)
Definition has_member (key : jsstring) (members : list (jsstring * value))
    : bool :=
  existsb (fun kv => eqb (fst kv) key) members.

Fixpoint all_some {A} (xs : list (option A)) : option (list A) :=
  match xs with
  | [] => Some []
  | None :: _ => None
  | Some x :: rest =>
      match all_some rest with
      | Some ys => Some (x :: ys)
      | None => None
      end
  end.

(** ToString, [None] where the conversion throws a TypeError.

    A decoded object is converted by the [toString] it inherits, unless
    it holds a member named [toString] of its own: that member is never
    callable, it hides the inherited method, [valueOf] gives back the
    object, and no primitive is found.  An array is the comma-join of
    its elements, where [null] and [undefined] elements give the empty
    string and the others are converted in turn. *)
Fixpoint to_string (v : value) : option jsstring :=
  match v with
  | VUndefined => Some (lit "undefined")
  | VNull => Some (lit "null")
  | VBool true => Some (lit "true")
  | VBool false => Some (lit "false")
  | VNum n => Some (num_text n)
  | VStr s => Some s
  | VArr es =>
      option_map (join (lit ","))
        (all_some (map (fun e => if nullish e then Some [] else to_string e) es))
  | VObj members =>
      if has_member (lit "toString") members then None
      else Some (lit "[object Object]")
  end.

(** The string that an assignment to [element.value] or
    [element.innerHTML] stores: the conversion of the value, and the
    empty string for [null]. *)
Definition dom_string (v : value) : option jsstring :=
  match v with VNull => Some [] | _ => to_string v end.

End JsValue.
Import JsValue.

(** ** Errors and completions *)

Inductive error_kind := ErrorK | TypeErrorK | SyntaxErrorK | DOMExceptionK.

Record js_error := JsError { kind : error_kind; message : jsstring }.

Inductive completion (A : Type) :=
| Normal (a : A)
| Throw (e : js_error).
Arguments Normal {A} a.
Arguments Throw {A} e.

(** ** The network interface *)

(** The serialised text of a JSON document.  Serialisation is kept
    symbolic: the text sent is determined by the document serialised. *)
Inductive wire_text := JSON_stringify (v : value).

(** The second argument of [fetch], every member optional. *)
Record RequestInit := {
  init_method : option jsstring;
  init_headers : list (jsstring * jsstring);
  init_body : option wire_text
}.

Record Request := {
  url : jsstring;
  method : jsstring;
  headers : list (jsstring * jsstring);
  body : option wire_text
}.

(** The request [fetch(url, init)] stands for; the method defaults to GET. *)
Definition make_request (u : jsstring) (init : option RequestInit) : Request :=
  match init with
  | None => {| url := u; method := lit "GET"; headers := []; body := None |}
  | Some i =>
      {| url := u;
         method := match init_method i with Some m => m | None => lit "GET" end;
         headers := init_headers i;
         body := init_body i |}
  end.

(** A response: its status line and what [response.json()] settles to. *)
Record Response := { status : N; json_outcome : completion value }.

(** [response.ok]: the status is in the range 200-299. *)
Definition ok (r : Response) : bool :=
  ((200 <=? status r) && (status r <=? 299))%N.

Inductive FetchOutcome :=
| Rejected (e : js_error)
| Responded (r : Response).

(** ** The page *)

(** The properties of page elements that the script touches, named
    [<element id>_<property>]. *)
Record Page := {
  defaultSystemPrompts_value : jsstring;
  question_value : jsstring;
  doctorInstructions_value : jsstring;
  answerContent_innerHTML : jsstring;
  referencesContent_innerHTML : jsstring;
  messageArea_innerHTML : jsstring;
  loading_display : jsstring;
  searchBtn_disabled : bool;
  answerSection_display : jsstring
}.

Definition set_defaultSystemPrompts_value (x : jsstring) (p : Page) : Page :=
  {| defaultSystemPrompts_value := x;
     question_value := question_value p;
     doctorInstructions_value := doctorInstructions_value p;
     answerContent_innerHTML := answerContent_innerHTML p;
     referencesContent_innerHTML := referencesContent_innerHTML p;
     messageArea_innerHTML := messageArea_innerHTML p;
     loading_display := loading_display p;
     searchBtn_disabled := searchBtn_disabled p;
     answerSection_display := answerSection_display p |}.

Definition set_answerContent_innerHTML (x : jsstring) (p : Page) : Page :=
  {| defaultSystemPrompts_value := defaultSystemPrompts_value p;
     question_value := question_value p;
     doctorInstructions_value := doctorInstructions_value p;
     answerContent_innerHTML := x;
     referencesContent_innerHTML := referencesContent_innerHTML p;
     messageArea_innerHTML := messageArea_innerHTML p;
     loading_display := loading_display p;
     searchBtn_disabled := searchBtn_disabled p;
     answerSection_display := answerSection_display p |}.

Definition set_referencesContent_innerHTML (x : jsstring) (p : Page) : Page :=
  {| defaultSystemPrompts_value := defaultSystemPrompts_value p;
     question_value := question_value p;
     doctorInstructions_value := doctorInstructions_value p;
     answerContent_innerHTML := answerContent_innerHTML p;
     referencesContent_innerHTML := x;
     messageArea_innerHTML := messageArea_innerHTML p;
     loading_display := loading_display p;
     searchBtn_disabled := searchBtn_disabled p;
     answerSection_display := answerSection_display p |}.

Definition set_messageArea_innerHTML (x : jsstring) (p : Page) : Page :=
  {| defaultSystemPrompts_value := defaultSystemPrompts_value p;
     question_value := question_value p;
     doctorInstructions_value := doctorInstructions_value p;
     answerContent_innerHTML := answerContent_innerHTML p;
     referencesContent_innerHTML := referencesContent_innerHTML p;
     messageArea_innerHTML := x;
     loading_display := loading_display p;
     searchBtn_disabled := searchBtn_disabled p;
     answerSection_display := answerSection_display p |}.

Definition set_loading_display (x : jsstring) (p : Page) : Page :=
  {| defaultSystemPrompts_value := defaultSystemPrompts_value p;
     question_value := question_value p;
     doctorInstructions_value := doctorInstructions_value p;
     answerContent_innerHTML := answerContent_innerHTML p;
     referencesContent_innerHTML := referencesContent_innerHTML p;
     messageArea_innerHTML := messageArea_innerHTML p;
     loading_display := x;
     searchBtn_disabled := searchBtn_disabled p;
     answerSection_display := answerSection_display p |}.

Definition set_searchBtn_disabled (x : bool) (p : Page) : Page :=
  {| defaultSystemPrompts_value := defaultSystemPrompts_value p;
     question_value := question_value p;
     doctorInstructions_value := doctorInstructions_value p;
     answerContent_innerHTML := answerContent_innerHTML p;
     referencesContent_innerHTML := referencesContent_innerHTML p;
     messageArea_innerHTML := messageArea_innerHTML p;
     loading_display := loading_display p;
     searchBtn_disabled := x;
     answerSection_display := answerSection_display p |}.

Definition set_answerSection_display (x : jsstring) (p : Page) : Page :=
  {| defaultSystemPrompts_value := defaultSystemPrompts_value p;
     question_value := question_value p;
     doctorInstructions_value := doctorInstructions_value p;
     answerContent_innerHTML := answerContent_innerHTML p;
     referencesContent_innerHTML := referencesContent_innerHTML p;
     messageArea_innerHTML := messageArea_innerHTML p;
     loading_display := loading_display p;
     searchBtn_disabled := searchBtn_disabled p;
     answerSection_display := x |}.

(** ** The world around one invocation *)

(** Where the engine itself throws a TypeError. *)
Inductive engine_fault :=
| ReadPropertyOf (base : value) (key : jsstring)
| NotAFunction (receiver : value) (key : jsstring)
| NoPrimitive (converted : value).

(** Everything the script does not decide. *)
Record Env := {
  (** how [fetch] settles, given the requests issued before this one *)
  network : list Request -> Request -> FetchOutcome;
  (** the user's answer to [confirm(text)] *)
  user_confirms : jsstring -> bool;
  (** the message of the TypeError the engine throws at a fault *)
  fault_message : engine_fault -> jsstring;
  (** whether a string, converted to a number, is greater than [0] *)
  string_gt_zero : jsstring -> bool
}.

(** What one invocation can change: the page, the requests issued (oldest
    first) and the console. *)
Record World := {
  page : Page;
  requests : list Request;
  console : list (jsstring * js_error)
}.

(** ** The monad of handlers *)

Definition M (A : Type) : Type := Env -> World -> completion A * World.

Definition ret {A} (a : A) : M A := fun _ w => (Normal a, w).

Definition bind {A B} (m : M A) (k : A -> M B) : M B :=
  fun env w =>
    match m env w with
    | (Normal a, w1) => k a env w1
    | (Throw e, w1) => (Throw e, w1)
    end.

Declare Scope js_scope.
Delimit Scope js_scope with js.
Notation "x <- m ;; k" := (bind m (fun x => k))
  (at level 61, m at next level, right associativity) : js_scope.
Notation "m ;; k" := (bind m (fun _ => k))
  (at level 61, right associativity) : js_scope.
Open Scope js_scope.

(** [throw e] *)
Definition throw {A} (e : js_error) : M A := fun _ w => (Throw e, w).

(** [try { body } catch (error) { handler }] *)
Definition try_catch {A} (body : M A) (handler : js_error -> M A) : M A :=
  fun env w =>
    match body env w with
    | (Normal a, w1) => (Normal a, w1)
    | (Throw e, w1) => handler e env w1
    end.

(** [try { body } catch (error) { handler } finally { cleanup }]: the
    cleanup runs however the rest completed, and only replaces that
    completion when it throws itself. *)
Definition try_catch_finally {A} (body : M A) (handler : js_error -> M A)
    (cleanup : M unit) : M A :=
  fun env w =>
    let (r, w1) := try_catch body handler env w in
    match cleanup env w1 with
    | (Normal _, w2) => (r, w2)
    | (Throw e, w2) => (Throw e, w2)
    end.

(** *** Reading and writing the page *)

Definition read {A} (property : Page -> A) : M A :=
  fun _ w => (Normal (property (page w)), w).

Definition write (update : Page -> Page) : M unit :=
  fun _ w =>
    (Normal tt,
     {| page := update (page w); requests := requests w; console := console w |}).

(** *** The outside world *)

(** [await fetch(url, init)]: the request is issued, then the promise
    settles the way the network decides. *)
Definition fetch (u : jsstring) (init : option RequestInit) : M Response :=
  fun env w =>
    let request := make_request u init in
    let w1 := {| page := page w;
                 requests := requests w ++ [request];
                 console := console w |} in
    match network env (requests w) request with
    | Rejected e => (Throw e, w1)
    | Responded r => (Normal r, w1)
    end.

(** [await response.json()] *)
Definition json (r : Response) : M value :=
  fun _ w => (json_outcome r, w).

(** [confirm(text)] *)
Definition confirm (text : jsstring) : M bool :=
  fun env w => (Normal (user_confirms env text), w).

(** [console.error(label, error)] *)
Definition console_error (label : jsstring) (e : js_error) : M unit :=
  fun _ w =>
    (Normal tt,
     {| page := page w; requests := requests w;
        console := console w ++ [(label, e)] |}).

(** *** Operations on values that can throw *)

Definition type_error {A} (f : engine_fault) : M A :=
  fun env w => (Throw (JsError TypeErrorK (fault_message env f)), w).

(** [base.key], for the property names the script reads: [success],
    [settings], [default_system_prompts], [message], [error_message],
    [llm_output], [summary], [sources_used], [url], [title] and
    [length].  Of these only [length] exists on arrays and strings, and
    none on booleans and numbers. *)
Definition get (base : value) (key : jsstring) : M value :=
  match base with
  | VUndefined | VNull => type_error (ReadPropertyOf base key)
  | VObj members => ret (member key members)
  | VArr es =>
      if eqb key (lit "length") then ret (VNum (number_of_nat (List.length es)))
      else ret VUndefined
  | VStr s =>
      if eqb key (lit "length") then ret (VNum (number_of_nat (List.length s)))
      else ret VUndefined
  | VBool _ | VNum _ => ret VUndefined
  end.

(** [a && b], the right operand evaluated only when the left is truthy. *)
Definition js_and (a : value) (b : M value) : M value :=
  if truthy a then b else ret a.

(** ToString of a value, a TypeError where there is no conversion. *)
Definition ToString (v : value) : M jsstring :=
  match to_string v with
  | Some text => ret text
  | None => type_error (NoPrimitive v)
  end.

(** [new Error(v)]: the message is the conversion of [v]. *)
Definition new_Error (v : value) : M js_error :=
  text <- ToString v ;;
  ret (JsError ErrorK text).

(** [element.property = v], for [value] and [innerHTML]: the value is
    converted first, so that nothing is stored when the conversion
    throws. *)
Definition assign (setter : jsstring -> Page -> Page) (v : value) : M unit :=
  match dom_string v with
  | Some text => write (setter text)
  | None => type_error (NoPrimitive v)
  end.

(** [v > 0]: the operand is converted to a number first; an array or an
    object goes through its string conversion, and throws where that
    does. *)
Definition gt_zero (v : value) : M bool :=
  fun env w =>
    match v with
    | VUndefined | VNull => (Normal false, w)
    | VBool b => (Normal b, w)
    | VNum n =>
        (Normal match num_sign n with Positive => true | _ => false end, w)
    | VStr s => (Normal (string_gt_zero env s), w)
    | VArr _ | VObj _ =>
        match to_string v with
        | Some text => (Normal (string_gt_zero env text), w)
        | None => type_error (NoPrimitive v) env w
        end
    end.

(** [receiver.forEach(callback)], where the callback updates a local
    variable of the caller: the variable is threaded through the calls.
    Only an array has the method; on any other decoded value the call is
    a TypeError. *)
Fixpoint iterate {S} (callback : value -> S -> M S) (es : list value) (acc : S)
    : M S :=
  match es with
  | [] => ret acc
  | e :: rest => acc1 <- callback e acc ;; iterate callback rest acc1
  end.

Definition forEach {S} (receiver : value) (callback : value -> S -> M S)
    (acc : S) : M S :=
  match receiver with
  | VArr es => iterate callback es acc
  | VUndefined | VNull => type_error (ReadPropertyOf receiver (lit "forEach"))
  | _ => type_error (NotAFunction receiver (lit "forEach"))
  end.

(** ** The script *)

Definition API_BASE_URL : jsstring := lit "http://localhost:8000".

(** [new Error(`HTTP error! status: ${response.status}`)]: the argument
    is a string already. *)
Definition http_error (response : Response) : js_error :=
  JsError ErrorK (lit "HTTP error! status: " ++ decimal (status response)).

Definition unknown_error : value := VStr (lit "Onbekende fout opgetreden").

(** *** Helpers of the page *)

Definition showLoading (show : bool) : M unit :=
  write (set_loading_display (if show then lit "block" else lit "none")) ;;
  write (set_searchBtn_disabled show).

Definition showMessage (msg type : jsstring) : M unit :=
  write (set_messageArea_innerHTML
           (lit "<div class=" ++ dq ++ type ++ dq ++ lit ">" ++ msg ++ lit "</div>")).

Definition hideMessage : M unit :=
  write (set_messageArea_innerHTML []).

Definition showAnswerSection : M unit :=
  write (set_answerSection_display (lit "block")).

Definition hideAnswerSection : M unit :=
  write (set_answerSection_display (lit "none")).

(** *** Settings *)

Definition loadSettings : M unit :=
  try_catch
    (response <- fetch (API_BASE_URL ++ lit "/api/settings") None ;;
     (if negb (ok response) then throw (http_error response) else ret tt) ;;
     data <- json response ;;
     condition <- (success <- get data (lit "success") ;;
                   js_and success (get data (lit "settings"))) ;;
     if truthy condition then
       settings <- get data (lit "settings") ;;
       prompts <- get settings (lit "default_system_prompts") ;;
       assign set_defaultSystemPrompts_value (js_or prompts (VStr []))
     else ret tt)
    (fun error =>
       console_error (lit "Failed to load settings:") error ;;
       showMessage (lit "Kon instellingen niet laden") (lit "error")).

Definition json_headers : list (jsstring * jsstring) :=
  [(lit "Content-Type", lit "application/json")].

Definition saveSettings : M unit :=
  field <- read defaultSystemPrompts_value ;;
  let defaultSystemPrompts := trim field in
  try_catch
    (response <- fetch (API_BASE_URL ++ lit "/api/settings")
                   (Some {| init_method := Some (lit "POST");
                            init_headers := json_headers;
                            init_body :=
                              Some (JSON_stringify
                                      (VObj [(lit "default_system_prompts",
                                              VStr defaultSystemPrompts)])) |}) ;;
     (if negb (ok response) then throw (http_error response) else ret tt) ;;
     data <- json response ;;
     success <- get data (lit "success") ;;
     if truthy success then
       showMessage (lit "Instellingen succesvol opgeslagen!") (lit "success")
     else
       msg <- get data (lit "message") ;;
       error <- new_Error (js_or msg unknown_error) ;;
       throw error)
    (fun error =>
       console_error (lit "Settings save error:") error ;;
       showMessage (lit "Fout bij opslaan instellingen: " ++ message error)
         (lit "error")).

Definition reset_question : jsstring :=
  lit "Weet je zeker dat je alle instellingen wilt resetten naar standaardwaarden?".

Definition resetSettings : M unit :=
  confirmed <- confirm reset_question ;;
  if negb confirmed then ret tt
  else
    try_catch
      (response <- fetch (API_BASE_URL ++ lit "/api/settings")
                     (Some {| init_method := Some (lit "DELETE");
                              init_headers := [];
                              init_body := None |}) ;;
       (if negb (ok response) then throw (http_error response) else ret tt) ;;
       data <- json response ;;
       success <- get data (lit "success") ;;
       if truthy success then
         assign set_defaultSystemPrompts_value (VStr []) ;;
         showMessage (lit "Instellingen gereset naar standaardwaarden!")
           (lit "success")
       else
         msg <- get data (lit "message") ;;
         error <- new_Error (js_or msg unknown_error) ;;
         throw error)
      (fun error =>
         console_error (lit "Settings reset error:") error ;;
         showMessage (lit "Fout bij resetten instellingen: " ++ message error)
           (lit "error")).

(** *** Search *)

(** One entry of the list of sources, as the callback of [forEach]
    appends it to [referencesHTML]. *)
Definition source_item (link title : jsstring) : jsstring :=
  lit "<li><a href=" ++ dq ++ link ++ dq
    ++ lit " target=" ++ dq ++ lit "_blank" ++ dq
    ++ lit " rel=" ++ dq ++ lit "noopener noreferrer" ++ dq ++ lit ">"
    ++ title ++ lit "</a></li>".

Definition no_summary : value := VStr (lit "Geen samenvatting beschikbaar.").

Definition displayResults (data : value) : M unit :=
  llm_output <- get data (lit "llm_output") ;;
  summary <- get llm_output (lit "summary") ;;
  assign set_answerContent_innerHTML (js_or summary no_summary) ;;
  condition <- (llm_output <- get data (lit "llm_output") ;;
                sources_used <- get llm_output (lit "sources_used") ;;
                js_and sources_used
                  (llm_output <- get data (lit "llm_output") ;;
                   sources_used <- get llm_output (lit "sources_used") ;;
                   len <- get sources_used (lit "length") ;;
                   positive <- gt_zero len ;;
                   ret (VBool positive))) ;;
  (if truthy condition then
     let referencesHTML := lit "<h4>Gebruikte bronnen:</h4><ul>" in
     llm_output <- get data (lit "llm_output") ;;
     sources_used <- get llm_output (lit "sources_used") ;;
     referencesHTML <- forEach sources_used
                         (fun result referencesHTML =>
                            link <- get result (lit "url") ;;
                            link <- ToString link ;;
                            title <- get result (lit "title") ;;
                            title <- ToString title ;;
                            ret (referencesHTML ++ source_item link title))
                         referencesHTML ;;
     let referencesHTML := referencesHTML ++ lit "</ul>" in
     write (set_referencesContent_innerHTML referencesHTML)
   else
     write (set_referencesContent_innerHTML (lit "<p>Geen bronnen gevonden.</p>"))) ;;
  showAnswerSection.

Definition performSearch : M unit :=
  question_field <- read question_value ;;
  let question := trim question_field in
  instructions_field <- read doctorInstructions_value ;;
  let doctorInstructions := trim instructions_field in
  if negb (truthy (VStr question)) then
    showMessage (lit "Vul eerst een vraag in.") (lit "error")
  else
    showLoading true ;;
    hideMessage ;;
    hideAnswerSection ;;
    try_catch_finally
      (response <- fetch (API_BASE_URL ++ lit "/api/search")
                     (Some {| init_method := Some (lit "POST");
                              init_headers := json_headers;
                              init_body :=
                                Some (JSON_stringify
                                        (VObj [(lit "query", VStr question);
                                               (lit "doctor_instructions",
                                                VStr doctorInstructions)])) |}) ;;
       (if negb (ok response) then throw (http_error response) else ret tt) ;;
       data <- json response ;;
       success <- get data (lit "success") ;;
       if truthy success then
         displayResults data ;;
         showMessage (lit "Zoekopdracht succesvol voltooid!") (lit "success")
       else
         error_message <- get data (lit "error_message") ;;
         let errorMessage := js_or error_message unknown_error in
         condition <- (llm_output <- get data (lit "llm_output") ;;
                       js_and llm_output
                         (llm_output <- get data (lit "llm_output") ;;
                          get llm_output (lit "summary"))) ;;
         if truthy condition then
           displayResults data ;;
           text <- ToString errorMessage ;;
           showMessage (lit "Waarschuwing: " ++ text) (lit "warning")
         else
           error <- new_Error errorMessage ;;
           throw error)
      (fun error =>
         console_error (lit "Search error:") error ;;
         showMessage (lit "Fout bij zoeken: " ++ message error) (lit "error"))
      (showLoading false).

(** ** Vocabulary of the properties *)

(** The world an invocation leaves, and how it completes. *)
Definition final {A} (m : M A) (env : Env) (w : World) : World := snd (m env w).
Definition outcome {A} (m : M A) (env : Env) (w : World) : completion A :=
  fst (m env w).

(** [preserves f m]: the observation [f] of the world is the same after
    [m] as before, however [m] completes. *)
Definition preserves {X A} (f : World -> X) (m : M A) : Prop :=
  forall env w, f (final m env w) = f w.

(** [normally m Q]: when [m] completes normally, [Q] holds of the world it
    leaves. *)
Definition normally {A} (m : M A) (Q : World -> Prop) : Prop :=
  forall env w a after, m env w = (Normal a, after) -> Q after.

(** [contained m]: no error leaves [m]; it always completes normally. *)
Definition contained {A} (m : M A) : Prop :=
  forall env w, exists a, outcome m env w = Normal a.

(** The requests of the four handlers, as the interface lists them. *)
Definition GET_settings : Request :=
  {| url := lit "http://localhost:8000/api/settings";
     method := lit "GET"; headers := []; body := None |}.

Definition POST_settings (prompts : jsstring) : Request :=
  {| url := lit "http://localhost:8000/api/settings";
     method := lit "POST";
     headers := [(lit "Content-Type", lit "application/json")];
     body := Some (JSON_stringify
                     (VObj [(lit "default_system_prompts", VStr prompts)])) |}.

Definition DELETE_settings : Request :=
  {| url := lit "http://localhost:8000/api/settings";
     method := lit "DELETE"; headers := []; body := None |}.

Definition POST_search (query instructions : jsstring) : Request :=
  {| url := lit "http://localhost:8000/api/search";
     method := lit "POST";
     headers := [(lit "Content-Type", lit "application/json")];
     body := Some (JSON_stringify
                     (VObj [(lit "query", VStr query);
                            (lit "doctor_instructions", VStr instructions)])) |}.

(** The answer to a request counts as accepted when the status is 2xx,
    the body decodes, and the decoded document has a truthy [success]. *)
Definition accepted (answer : FetchOutcome) : bool :=
  match answer with
  | Responded r =>
      ok r
      && match json_outcome r with
         | Normal (VObj members) => truthy (member (lit "success") members)
         | _ => false
         end
  | Rejected _ => false
  end.

(** A message of the message area. *)
Definition message_markup (type text : string) : jsstring :=
  lit "<div class=" ++ dq ++ lit type ++ dq ++ lit ">" ++ lit text ++ lit "</div>".

(** The message area holds a message. *)
Definition reports (w : World) : Prop :=
  exists type text,
    messageArea_innerHTML (page w)
    = lit "<div class=" ++ dq ++ type ++ dq ++ lit ">" ++ text ++ lit "</div>".

(** The link the page shows for one source. *)
Definition link_markup (link title : jsstring) : jsstring :=
  lit "<li><a href=" ++ dq ++ link ++ dq
    ++ lit " target=" ++ dq ++ lit "_blank" ++ dq
    ++ lit " rel=" ++ dq ++ lit "noopener noreferrer" ++ dq
    ++ lit ">" ++ title ++ lit "</a></li>".

(** A source as the page shows it: the text of its address and the text
    of its title. *)
Record Source := { source_url : jsstring; source_title : jsstring }.

(** An entry of [sources_used] gives a source when its [url] and its
    [title] convert to strings; strings give themselves. *)
Definition gives_source (entry : list (jsstring * value)) (source : Source)
    : Prop :=
  to_string (member (lit "url") entry) = Some (source_url source)
  /\ to_string (member (lit "title") entry) = Some (source_title source).

(** The references block for a list of sources: one link per source, in
    the order of the list, or a notice when there is none. *)
Definition references_markup (sources : list Source) : jsstring :=
  match sources with
  | [] => lit "<p>Geen bronnen gevonden.</p>"
  | _ :: _ =>
      lit "<h4>Gebruikte bronnen:</h4><ul>"
        ++ flat_map
             (fun source => link_markup (source_url source) (source_title source))
             sources
        ++ lit "</ul>"
  end.

(** How [sources_used] lists the sources: a missing member lists none,
    an array of objects lists the sources its elements give, in order. *)
Inductive lists_sources : value -> list Source -> Prop :=
| sources_missing : lists_sources VUndefined []
| sources_null : lists_sources VNull []
| sources_listed entries sources :
    Forall2 gives_source entries sources ->
    lists_sources (VArr (map VObj entries)) sources.


(** The page after [displayResults] has shown an answer. *)
Definition rendered (answer references : jsstring) (p : Page) : Page :=
  set_answerSection_display (lit "block")
    (set_referencesContent_innerHTML references
       (set_answerContent_innerHTML answer p)).

(** ** Sample worlds

    A page in the middle of a session and servers answering the same way
    to every request, for running the handlers on concrete inputs. *)
Module Sample.

Definition page_with (question instructions : string) : Page :=
  {| defaultSystemPrompts_value := lit "  Antwoord kort. ";
     question_value := lit question;
     doctorInstructions_value := lit instructions;
     answerContent_innerHTML := lit "vorig antwoord";
     referencesContent_innerHTML := lit "<p>vorige bronnen</p>";
     messageArea_innerHTML := [];
     loading_display := lit "none";
     searchBtn_disabled := false;
     answerSection_display := lit "block" |}.

Definition world_with (question instructions : string) : World :=
  {| page := page_with question instructions; requests := []; console := [] |}.

Definition asking : World := world_with " Wat is griep?  " " kort ".
Definition blank : World := world_with "   " "kort".

Definition env_with (answer : FetchOutcome) (confirms : bool) : Env :=
  {| network := fun _ _ => answer;
     user_confirms := fun _ => confirms;
     fault_message := fun _ => lit "Cannot read properties";
     string_gt_zero := fun _ => false |}.

Definition replying (code : N) (document : value) : FetchOutcome :=
  Responded {| status := code; json_outcome := Normal document |}.

Definition offline : FetchOutcome :=
  Rejected (JsError TypeErrorK (lit "Failed to fetch")).

Definition source (title link : string) : list (jsstring * value) :=
  [(lit "title", VStr (lit title)); (lit "url", VStr (lit link))].

Definition griep_sources : list (list (jsstring * value)) :=
  [source "Richtlijn influenza" "https://example.org/influenza";
   source "Griepprik" "https://example.org/griepprik"].

Definition griep_output : list (jsstring * value) :=
  [(lit "summary", VStr (lit "Griep is een virusinfectie."));
   (lit "sources_used", VArr (map VObj griep_sources))].

Definition griep_answer : list (jsstring * value) :=
  [(lit "success", VBool true); (lit "llm_output", VObj griep_output)].

Definition stored_settings : list (jsstring * value) :=
  [(lit "default_system_prompts", VStr (lit "Antwoord in het Nederlands."))].

(** The server reports a failure while still sending stored settings. *)
Definition refused_settings : value :=
  VObj [(lit "success", VBool false); (lit "settings", VObj stored_settings)].

Definition griep_links : list Source :=
  [{| source_url := lit "https://example.org/influenza";
      source_title := lit "Richtlijn influenza" |};
   {| source_url := lit "https://example.org/griepprik";
      source_title := lit "Griepprik" |}].

End Sample.

(** ** The answer buttons and the keyboard shortcut *)

(** [clearAnswer] *)
Definition clearAnswer : M unit :=
  assign set_answerContent_innerHTML (VStr []) ;;
  assign set_referencesContent_innerHTML (VStr []) ;;
  hideAnswerSection ;;
  showMessage (lit "Antwoord gewist!") (lit "success").

(** The keyboard event a listener receives, as far as the script looks at
    it, and the flag [preventDefault] sets on it. *)
Record KeyboardEvent := {
  key : jsstring;
  ctrlKey : bool;
  defaultPrevented : bool
}.

(** [e.preventDefault()] *)
Definition preventDefault (e : KeyboardEvent) : KeyboardEvent :=
  {| key := key e; ctrlKey := ctrlKey e; defaultPrevented := true |}.

(** A call of an asynchronous function whose promise is dropped: the
    caller goes on normally however the call settles. *)
Definition detached {A} (m : M A) : M unit :=
  fun env w => let (_, w1) := m env w in (Normal tt, w1).

(** The [keydown] listener that [setupKeyboardShortcuts] puts on the
    question field.  The event object is mutated by the listener, so the
    listener returns it. *)
Definition keydown_listener (e : KeyboardEvent) : M KeyboardEvent :=
  if eqb (key e) (lit "Enter") && ctrlKey e then
    let e := preventDefault e in
    detached performSearch ;;
    ret e
  else ret e.

(** *** Copying and saving the answer

    These two read the rendered text of the answer and use the clipboard,
    which are the browser's: what the browser does is a second reader, and
    the clipboard a second piece of state. *)
Record Browser := {
  (** [answerContent.innerText], the text rendered for the answer on a page *)
  answer_innerText : Page -> jsstring;
  (** [navigator.clipboard], absent outside a secure context; when present,
      how [writeText(text)] settles *)
  clipboard_api : option (jsstring -> completion unit)
}.

Record Desk := { world : World; clipboard : jsstring }.

Definition D (A : Type) : Type := Browser -> Env -> Desk -> completion A * Desk.

Definition lift {A} (m : M A) : D A :=
  fun _ env d =>
    let (r, w) := m env (world d) in
    (r, {| world := w; clipboard := clipboard d |}).

Definition bindD {A B} (m : D A) (k : A -> D B) : D B :=
  fun b env d =>
    match m b env d with
    | (Normal a, d1) => k a b env d1
    | (Throw e, d1) => (Throw e, d1)
    end.

(** [document.getElementById('answerContent').innerText] *)
Definition read_innerText : D jsstring :=
  fun b _ d => (Normal (answer_innerText b (page (world d))), d).

(** [navigator.clipboard.writeText(text)]: a TypeError when the clipboard
    is absent; otherwise the promise, given by the way it settles, and the
    clipboard holds the text when it is fulfilled. *)
Definition writeText (text : jsstring) : D (completion unit) :=
  fun b env d =>
    match clipboard_api b with
    | None =>
        (Throw (JsError TypeErrorK
                  (fault_message env (ReadPropertyOf VUndefined (lit "writeText")))),
         d)
    | Some settle =>
        match settle text with
        | Normal _ => (Normal (Normal tt), {| world := world d; clipboard := text |})
        | Throw e => (Normal (Throw e), d)
        end
    end.

(** [promise.then(fulfilled).catch(rejected)], the resulting promise
    dropped: an error of [fulfilled] goes to [rejected]; the caller goes on
    normally. *)
Definition then_catch (promise : completion unit) (fulfilled : D unit)
    (rejected : js_error -> D unit) : D unit :=
  fun b env d =>
    match promise with
    | Normal _ =>
        match fulfilled b env d with
        | (Normal _, d1) => (Normal tt, d1)
        | (Throw e, d1) => let (_, d2) := rejected e b env d1 in (Normal tt, d2)
        end
    | Throw e => let (_, d1) := rejected e b env d in (Normal tt, d1)
    end.

(** The letter e with diaeresis of 'kopieren'. *)
Definition e_diaeresis : jsstring := [235%N].

Definition saveAnswer : D unit :=
  bindD read_innerText (fun content =>
  lift (showMessage
          (lit "Antwoord opgeslagen! (In een echte app zou dit naar een database gaan)")
          (lit "success"))).

Definition copyAnswer : D unit :=
  bindD read_innerText (fun content =>
  if negb (truthy (VStr (trim content))) then
    lift (showMessage (lit "Geen antwoord om te kopi" ++ e_diaeresis ++ lit "ren")
            (lit "warning"))
  else
    bindD (writeText content) (fun promise =>
    then_catch promise
      (lift (showMessage (lit "Antwoord gekopieerd naar klembord!") (lit "success")))
      (fun err =>
         lift (showMessage
                 (lit "Fout bij kopi" ++ e_diaeresis ++ lit "ren naar klembord")
                 (lit "error"))))).

(** *** Further vocabulary *)

(** What the user typed into the search form. *)
Definition search_inputs (w : World) : jsstring * jsstring :=
  (question_value (page w), doctorInstructions_value (page w)).

(** The answer as displayed: its content, its references and whether the
    section shows. *)
Definition answer_area (w : World) : jsstring * jsstring * jsstring :=
  (answerContent_innerHTML (page w), referencesContent_innerHTML (page w),
   answerSection_display (page w)).

(** The loading indicator and the search button. *)
Definition loading_state (w : World) : jsstring * bool :=
  (loading_display (page w), searchBtn_disabled (page w)).

(** Everything but the answer as displayed: the message area, the
    settings field, the search form, the loading state, the requests
    issued and the console. *)
Definition outside_answer (w : World)
    : jsstring * jsstring * (jsstring * jsstring) * (jsstring * bool)
      * list Request * list (jsstring * js_error) :=
  (messageArea_innerHTML (page w), defaultSystemPrompts_value (page w),
   search_inputs w, loading_state w, requests w, console w).

(** An error message of the message area. *)
Definition error_markup (text : jsstring) : jsstring :=
  lit "<div class=" ++ dq ++ lit "error" ++ dq ++ lit ">" ++ text ++ lit "</div>".

Definition all_space (s : jsstring) : bool := forallb is_space s.

(** Browsers and desks for running the answer buttons on concrete inputs. *)
Module Desktop.

(** The rendered text is the markup itself: an answer without tags. *)
Definition plain (write : option (jsstring -> completion unit)) : Browser :=
  {| answer_innerText := answerContent_innerHTML; clipboard_api := write |}.

Definition permits : jsstring -> completion unit := fun _ => Normal tt.

Definition denies : jsstring -> completion unit :=
  fun _ => Throw (JsError DOMExceptionK (lit "Write permission denied.")).

Definition desk_of (w : World) : Desk :=
  {| world := w; clipboard := lit "eerder gekopieerd" |}.

Definition ctrl_enter : KeyboardEvent :=
  {| key := lit "Enter"; ctrlKey := true; defaultPrevented := false |}.

Definition plain_enter : KeyboardEvent :=
  {| key := lit "Enter"; ctrlKey := false; defaultPrevented := false |}.

End Desktop.

(** ** Reasoning about one invocation *)

(** *** What a computation leaves alone

    The rules follow the syntax of a computation; only a write to the
    page, a line on the console and a fetch change the world, and each
    asks whether the observation [f] sees that change. *)
Section Preservation.

Context {X : Type} (f : World -> X).

Lemma preserves_ret {A} (a : A) : preserves f (ret a).
Proof. intros env w. reflexivity. Qed.

Lemma preserves_throw {A} e : preserves f (@throw A e).
Proof. intros env w. reflexivity. Qed.

Lemma preserves_type_error {A} fault : preserves f (@type_error A fault).
Proof. intros env w. reflexivity. Qed.

Lemma preserves_read {A} (property : Page -> A) : preserves f (read property).
Proof. intros env w. reflexivity. Qed.

Lemma preserves_json r : preserves f (json r).
Proof. intros env w. reflexivity. Qed.

Lemma preserves_confirm text : preserves f (confirm text).
Proof. intros env w. reflexivity. Qed.

Lemma preserves_gt_zero v : preserves f (gt_zero v).
Proof.
  intros env w. unfold final, gt_zero.
  destruct v; try reflexivity;
    match goal with |- context [to_string ?x] => destruct (to_string x) end;
    reflexivity.
Qed.

Lemma preserves_ToString v : preserves f (ToString v).
Proof.
  intros env w. unfold final, ToString. destruct (to_string v); reflexivity.
Qed.

Lemma preserves_bind {A B} (m : M A) (k : A -> M B) :
  preserves f m -> (forall a, preserves f (k a)) -> preserves f (bind m k).
Proof.
  intros Hm Hk env w. unfold final, bind.
  specialize (Hm env w). unfold final in Hm.
  destruct (m env w) as [[a | e] w1]; simpl in *.
  - rewrite <- Hm. apply Hk.
  - exact Hm.
Qed.

Lemma preserves_try_catch {A} (body : M A) handler :
  preserves f body -> (forall e, preserves f (handler e)) ->
  preserves f (try_catch body handler).
Proof.
  intros Hb Hh env w. unfold final, try_catch.
  specialize (Hb env w). unfold final in Hb.
  destruct (body env w) as [[a | e] w1]; simpl in *.
  - exact Hb.
  - rewrite <- Hb. apply Hh.
Qed.

Lemma preserves_try_catch_finally {A} (body : M A) handler cleanup :
  preserves f body -> (forall e, preserves f (handler e)) -> preserves f cleanup ->
  preserves f (try_catch_finally body handler cleanup).
Proof.
  intros Hb Hh Hc env w. unfold final, try_catch_finally.
  pose proof (@preserves_try_catch A body handler Hb Hh env w) as Ht. unfold final in Ht.
  destruct (try_catch body handler env w) as [r w1]; simpl in *.
  specialize (Hc env w1). unfold final in Hc.
  destruct (cleanup env w1) as [[u | e] w2]; simpl in *; congruence.
Qed.

Lemma preserves_get base key : preserves f (get base key).
Proof.
  destruct base; simpl;
    try destruct (eqb key (lit "length"));
    auto using preserves_ret, preserves_type_error.
Qed.

Lemma preserves_js_and a b : preserves f b -> preserves f (js_and a b).
Proof.
  intros Hb. unfold js_and. destruct (truthy a); auto using preserves_ret.
Qed.

Lemma preserves_iterate {S} (callback : value -> S -> M S) es :
  (forall e acc, preserves f (callback e acc)) ->
  forall acc, preserves f (iterate callback es acc).
Proof.
  intros Hc. induction es as [| e rest IH]; intros acc; simpl.
  - apply preserves_ret.
  - apply preserves_bind; auto.
Qed.

Lemma preserves_forEach {S} receiver (callback : value -> S -> M S) acc :
  (forall e a, preserves f (callback e a)) ->
  preserves f (forEach receiver callback acc).
Proof.
  intros Hc. destruct receiver; simpl;
    auto using preserves_type_error, preserves_iterate.
Qed.

Lemma preserves_new_Error v : preserves f (new_Error v).
Proof.
  unfold new_Error. apply preserves_bind.
  - apply preserves_ToString.
  - intro. apply preserves_ret.
Qed.

(** The three ways the world changes. *)
Lemma preserves_write update :
  (forall w, f {| page := update (page w); requests := requests w;
                  console := console w |} = f w) ->
  preserves f (write update).
Proof. intros H env w. apply H. Qed.

Lemma preserves_assign setter v :
  (forall w text,
      f {| page := setter text (page w); requests := requests w;
           console := console w |} = f w) ->
  preserves f (assign setter v).
Proof.
  intros H. unfold assign. destruct (dom_string v).
  - apply preserves_write. intro. apply H.
  - apply preserves_type_error.
Qed.

Lemma preserves_console_error label e :
  (forall w, f {| page := page w; requests := requests w;
                  console := console w ++ [(label, e)] |} = f w) ->
  preserves f (console_error label e).
Proof. intros H env w. apply H. Qed.

Lemma preserves_fetch u init :
  (forall w, f {| page := page w;
                  requests := requests w ++ [make_request u init];
                  console := console w |} = f w) ->
  preserves f (fetch u init).
Proof.
  intros H env w. unfold final, fetch.
  destruct (network env (requests w) (make_request u init)); simpl; apply H.
Qed.

End Preservation.

Create HintDb frame.
#[local] Hint Resolve preserves_ret preserves_throw preserves_type_error
  preserves_read preserves_json preserves_confirm preserves_gt_zero
  preserves_get preserves_ToString preserves_new_Error : frame.

(** Decompose a computation along its syntax, leaving the writes, the
    console and the fetches to the caller. *)
Ltac frame_step :=
  match goal with
  | |- preserves _ (bind _ _) => apply preserves_bind; [| intro]
  | |- preserves _ (try_catch _ _) => apply preserves_try_catch; [| intro]
  | |- preserves _ (try_catch_finally _ _ _) =>
      apply preserves_try_catch_finally; [| intro |]
  | |- preserves _ (js_and _ _) => apply preserves_js_and
  | |- preserves _ (forEach _ _ _) => apply preserves_forEach; intros
  | |- preserves _ (if ?b then _ else _) => destruct b
  | |- preserves _ (write _) => apply preserves_write; intro; reflexivity
  | |- preserves _ (assign _ _) => apply preserves_assign; intros; reflexivity
  | |- preserves _ (console_error _ _) =>
      apply preserves_console_error; intro; reflexivity
  | |- preserves _ (fetch _ _) => apply preserves_fetch; intro; reflexivity
  | |- preserves _ _ => solve [auto with frame]
  end.

Ltac frame := repeat frame_step.

(** *** The helpers and [displayResults] touch neither the network nor the
    settings field *)

Lemma showMessage_quiet msg type : preserves requests (showMessage msg type).
Proof. unfold showMessage. frame. Qed.

Lemma showLoading_quiet show : preserves requests (showLoading show).
Proof. unfold showLoading. frame. Qed.

Lemma displayResults_quiet data : preserves requests (displayResults data).
Proof.
  unfold displayResults, showAnswerSection. frame.
Qed.

(** *** Stepping through the reads that open a handler *)

Lemma run_read_bind {A B} (property : Page -> A) (k : A -> M B) env w :
  bind (read property) k env w = k (property (page w)) env w.
Proof. reflexivity. Qed.

Lemma run_confirm_bind {B} text (k : bool -> M B) env w :
  bind (confirm text) k env w = k (user_confirms env text) env w.
Proof. reflexivity. Qed.

(** *** A guarded fetch issues exactly its own request *)

Lemma guarded_fetch_requests {A} u init (rest : Response -> M A) handler :
  (forall r, preserves requests (rest r)) ->
  (forall e, preserves requests (handler e)) ->
  forall env w,
    requests (final (try_catch (bind (fetch u init) rest) handler) env w)
    = requests w ++ [make_request u init].
Proof.
  intros Hrest Hhandler env w.
  assert (Hfetch : requests (final (fetch u init) env w)
                   = requests w ++ [make_request u init]).
  { unfold final, fetch.
    destruct (network env (requests w) (make_request u init)); reflexivity. }
  rewrite <- Hfetch. unfold final, try_catch, bind.
  destruct (fetch u init env w) as [[r | e] w1]; simpl.
  - pose proof (Hrest r env w1) as Hr. unfold final in Hr.
    destruct (rest r env w1) as [[a | e] w2]; simpl in *.
    + exact Hr.
    + rewrite <- Hr. apply Hhandler.
  - apply Hhandler.
Qed.

Lemma guarded_fetch_finally_requests {A} u init (rest : Response -> M A)
    handler cleanup :
  (forall r, preserves requests (rest r)) ->
  (forall e, preserves requests (handler e)) ->
  preserves requests cleanup ->
  forall env w,
    requests (final (try_catch_finally (bind (fetch u init) rest) handler cleanup)
                env w)
    = requests w ++ [make_request u init].
Proof.
  intros Hrest Hhandler Hcleanup env w.
  rewrite <- (guarded_fetch_requests u init rest handler Hrest Hhandler env w).
  unfold final, try_catch_finally.
  destruct (try_catch (bind (fetch u init) rest) handler env w) as [r w1]; simpl.
  pose proof (Hcleanup env w1) as Hc. unfold final in Hc.
  destruct (cleanup env w1) as [[x | e] w2]; exact Hc.
Qed.

Lemma loadSettings_requests env w :
  requests (final loadSettings env w) = requests w ++ [GET_settings].
Proof.
  unfold loadSettings.
  rewrite guarded_fetch_requests; [reflexivity | intro; frame | intro; frame].
  apply showMessage_quiet.
Qed.

Lemma saveSettings_requests env w :
  requests (final saveSettings env w)
  = requests w ++ [POST_settings (trim (defaultSystemPrompts_value (page w)))].
Proof.
  unfold saveSettings, final. rewrite run_read_bind.
  etransitivity;
    [apply guarded_fetch_requests; intro; frame; apply showMessage_quiet
    | reflexivity].
Qed.

Lemma resetSettings_requests env w :
  requests (final resetSettings env w)
  = if user_confirms env reset_question
    then requests w ++ [DELETE_settings] else requests w.
Proof.
  unfold resetSettings, final. rewrite run_confirm_bind.
  destruct (user_confirms env reset_question); simpl; [| reflexivity].
  etransitivity;
    [apply guarded_fetch_requests; intro; frame; apply showMessage_quiet
    | reflexivity].
Qed.

Lemma performSearch_requests env w :
  requests (final performSearch env w)
  = if truthy (VStr (trim (question_value (page w))))
    then requests w
           ++ [POST_search (trim (question_value (page w)))
                 (trim (doctorInstructions_value (page w)))]
    else requests w.
Proof.
  unfold performSearch, final. rewrite run_read_bind, run_read_bind.
  destruct (truthy (VStr (trim (question_value (page w))))); simpl.
  - unfold bind at 1 2 3. simpl.
    etransitivity;
      [apply guarded_fetch_finally_requests;
       try intro; frame;
       auto using showMessage_quiet, displayResults_quiet, showLoading_quiet
      | reflexivity].
  - reflexivity.
Qed.

Lemma run_write_bind {B} update (k : unit -> M B) env w :
  bind (write update) k env w
  = k tt env {| page := update (page w); requests := requests w;
                console := console w |}.
Proof. reflexivity. Qed.

Lemma run_showLoading_bind {B} show (k : unit -> M B) env w :
  bind (showLoading show) k env w
  = k tt env
      {| page := set_searchBtn_disabled show
                   (set_loading_display (if show then lit "block" else lit "none")
                      (page w));
         requests := requests w;
         console := console w |}.
Proof. reflexivity. Qed.

Lemma truthy_string s : truthy (VStr s) = true <-> s <> [].
Proof. destruct s; simpl; split; congruence. Qed.

Lemma falsy_string s : truthy (VStr s) = false <-> s = [].
Proof. destruct s; simpl; split; congruence. Qed.

(** Whatever the guarded part did, the cleanup has the last word. *)
Lemma try_catch_finally_post {A} (body : M A) handler cleanup
    (Q : World -> Prop) :
  (forall env w, Q (final cleanup env w)) ->
  forall env w, Q (final (try_catch_finally body handler cleanup) env w).
Proof.
  intros Hc env w. unfold final, try_catch_finally.
  destruct (try_catch body handler env w) as [r w1].
  specialize (Hc env w1). unfold final in Hc.
  destruct (cleanup env w1) as [[x | e] w2]; exact Hc.
Qed.

(** ** Requests *)

(** C5: a search with a non-empty trimmed question sends one POST to
    /api/search whose JSON body has exactly the members [query], the
    trimmed question, and [doctor_instructions], the trimmed doctor
    instructions. *)
Theorem search_request_shape env w :
  trim (question_value (page w)) <> [] ->
  exists request,
    requests (final performSearch env w) = requests w ++ [request]
    /\ method request = lit "POST"
    /\ url request = lit "http://localhost:8000/api/search"
    /\ body request
       = Some (JSON_stringify
                 (VObj [(lit "query", VStr (trim (question_value (page w))));
                        (lit "doctor_instructions",
                         VStr (trim (doctorInstructions_value (page w))))])).
Proof.
  intros Hq. apply truthy_string in Hq.
  eexists. rewrite performSearch_requests, Hq.
  split; [reflexivity |]. repeat split.
Qed.

Lemma search_request_shape_witness :
  exists request,
    requests (final performSearch (Sample.env_with Sample.offline true) Sample.asking)
    = [request]
    /\ method request = lit "POST"
    /\ url request = lit "http://localhost:8000/api/search"
    /\ body request
       = Some (JSON_stringify
                 (VObj [(lit "query", VStr (lit "Wat is griep?"));
                        (lit "doctor_instructions", VStr (lit "kort"))])).
Proof.
  apply (search_request_shape (Sample.env_with Sample.offline true) Sample.asking).
  vm_compute. discriminate.
Defined.

(** C6: saving sends one POST to /api/settings whose JSON body has exactly
    the member [default_system_prompts], the trimmed content of the
    settings field, and leaves the field as it was. *)
Theorem save_request_shape env w :
  (exists request,
     requests (final saveSettings env w) = requests w ++ [request]
     /\ method request = lit "POST"
     /\ url request = lit "http://localhost:8000/api/settings"
     /\ body request
        = Some (JSON_stringify
                  (VObj [(lit "default_system_prompts",
                          VStr (trim (defaultSystemPrompts_value (page w))))])))
  /\ defaultSystemPrompts_value (page (final saveSettings env w))
     = defaultSystemPrompts_value (page w).
Proof.
  split.
  - eexists. rewrite saveSettings_requests. repeat split.
  - assert (H : preserves (fun w => defaultSystemPrompts_value (page w)) saveSettings).
    { unfold saveSettings, showMessage. frame. }
    apply H.
Qed.

(** C7: one invocation of a handler issues at most one request. *)
Theorem at_most_one_request env w :
  let issued (handler : M unit) :=
    exists extra,
      requests (final handler env w) = requests w ++ extra
      /\ List.length extra <= 1 in
  issued loadSettings /\ issued saveSettings
  /\ issued resetSettings /\ issued performSearch.
Proof.
  cbv zeta. repeat split.
  - exists [GET_settings]. split; [apply loadSettings_requests | simpl; lia].
  - eexists. split; [apply saveSettings_requests | simpl; lia].
  - rewrite resetSettings_requests.
    destruct (user_confirms env reset_question).
    + exists [DELETE_settings]. split; [reflexivity | simpl; lia].
    + exists []. split; [symmetry; apply app_nil_r | simpl; lia].
  - rewrite performSearch_requests.
    destruct (truthy (VStr (trim (question_value (page w))))).
    + eexists. split; [reflexivity | simpl; lia].
    + exists []. split; [symmetry; apply app_nil_r | simpl; lia].
Qed.

(** ** Search *)

(** C8: with an empty trimmed question no request is issued, the message
    'Vul eerst een vraag in.' is shown as an error, and the loading
    indicator, the search button, the answer section and the references
    stay as they were. *)
Theorem performSearch_empty_question env w :
  trim (question_value (page w)) = [] ->
  let after := final performSearch env w in
  requests after = requests w
  /\ messageArea_innerHTML (page after)
     = message_markup "error" "Vul eerst een vraag in."
  /\ loading_display (page after) = loading_display (page w)
  /\ searchBtn_disabled (page after) = searchBtn_disabled (page w)
  /\ answerSection_display (page after) = answerSection_display (page w)
  /\ referencesContent_innerHTML (page after)
     = referencesContent_innerHTML (page w).
Proof.
  intros Hq. unfold performSearch, final.
  rewrite run_read_bind, run_read_bind.
  apply falsy_string in Hq. rewrite Hq. simpl.
  repeat split.
Qed.

Lemma performSearch_empty_question_witness :
  let after := final performSearch (Sample.env_with Sample.offline true)
                 Sample.blank in
  requests after = []
  /\ messageArea_innerHTML (page after)
     = message_markup "error" "Vul eerst een vraag in."
  /\ loading_display (page after) = lit "none"
  /\ searchBtn_disabled (page after) = false
  /\ answerSection_display (page after) = lit "block"
  /\ referencesContent_innerHTML (page after) = lit "<p>vorige bronnen</p>".
Proof.
  apply (performSearch_empty_question (Sample.env_with Sample.offline true)
           Sample.blank).
  reflexivity.
Defined.

(** C9: a search that starts, whichever way it goes, ends with the loading
    indicator hidden and the search button enabled. *)
Theorem performSearch_releases_loading env w :
  trim (question_value (page w)) <> [] ->
  loading_display (page (final performSearch env w)) = lit "none"
  /\ searchBtn_disabled (page (final performSearch env w)) = false.
Proof.
  intros Hq. apply truthy_string in Hq.
  unfold performSearch, final.
  rewrite run_read_bind, run_read_bind, Hq. simpl negb. cbv iota.
  unfold showLoading, hideMessage, hideAnswerSection.
  unfold bind at 1 2 3 4. simpl.
  match goal with
  | |- context [try_catch_finally ?b ?h ?c ?e ?w0] =>
      apply (@try_catch_finally_post _ b h c
               (fun after => loading_display (page after) = lit "none"
                             /\ searchBtn_disabled (page after) = false))
  end.
  intros env' w'. split; reflexivity.
Qed.

Lemma performSearch_releases_loading_witness :
  loading_display
    (page (final performSearch (Sample.env_with Sample.offline true) Sample.asking))
  = lit "none"
  /\ searchBtn_disabled
       (page (final performSearch (Sample.env_with Sample.offline true)
                Sample.asking))
     = false.
Proof.
  apply (performSearch_releases_loading (Sample.env_with Sample.offline true)
           Sample.asking).
  vm_compute. discriminate.
Defined.

(** *** Running a handler step by step

    [run] unfolds the monad and the page helpers, and nothing of the
    strings, so that the next decision of the outside world shows. *)
Ltac run :=
  cbv beta iota zeta
    delta [final outcome bind ret throw try_catch try_catch_finally
           read write fetch json confirm console_error type_error
           get js_and gt_zero negb fst snd ToString new_Error assign
           showMessage showLoading hideMessage
           showAnswerSection hideAnswerSection];
  repeat match goal with
    | |- context [eqb (lit ?a) (lit ?b)] =>
        let decided := eval vm_compute in (eqb (lit a) (lit b)) in
        change (eqb (lit a) (lit b)) with decided; cbv beta iota
    end;
  cbn [page requests console dom_string to_string]; cbv beta iota.

(** ** Settings *)

Lemma loadSettings_loaded env w r members settings text :
  network env (requests w) GET_settings = Responded r ->
  ok r = true ->
  json_outcome r = Normal (VObj members) ->
  truthy (member (lit "success") members) = true ->
  member (lit "settings") members = VObj settings ->
  dom_string (js_or (member (lit "default_system_prompts") settings) (VStr []))
  = Some text ->
  loadSettings env w
  = (Normal tt,
     {| page := set_defaultSystemPrompts_value text (page w);
        requests := requests w ++ [GET_settings];
        console := console w |}).
Proof.
  intros Hnet Hok Hjson Hsuccess Hsettings Htext.
  unfold loadSettings, try_catch, bind, fetch.
  change (make_request (API_BASE_URL ++ lit "/api/settings") None)
    with GET_settings.
  rewrite Hnet, Hok. simpl. unfold json. rewrite Hjson. simpl.
  unfold js_and. rewrite Hsuccess. simpl. rewrite Hsettings. simpl.
  unfold assign. rewrite Htext. reflexivity.
Qed.

(** C3: when GET /api/settings is answered 2xx with a truthy [success]
    and a settings object, the settings field holds the server's
    [default_system_prompts], and the empty string when that member is
    absent. *)
Theorem loadSettings_fills_field env w r members settings :
  network env (requests w) GET_settings = Responded r ->
  ok r = true ->
  json_outcome r = Normal (VObj members) ->
  truthy (member (lit "success") members) = true ->
  member (lit "settings") members = VObj settings ->
  let field := defaultSystemPrompts_value (page (final loadSettings env w)) in
  (forall s, member (lit "default_system_prompts") settings = VStr s ->
             field = s)
  /\ (member (lit "default_system_prompts") settings = VUndefined ->
      field = []).
Proof.
  intros Hnet Hok Hjson Hsuccess Hsettings. unfold final.
  split.
  - intros s Hs.
    rewrite (@loadSettings_loaded env w r members settings s
               Hnet Hok Hjson Hsuccess Hsettings);
      [reflexivity | rewrite Hs; destruct s; reflexivity].
  - intros Hs.
    rewrite (@loadSettings_loaded env w r members settings []
               Hnet Hok Hjson Hsuccess Hsettings);
      [reflexivity | rewrite Hs; reflexivity].
Qed.

Lemma loadSettings_fills_field_witness :
  defaultSystemPrompts_value
    (page (final loadSettings
             (Sample.env_with
                (Sample.replying 200
                   (VObj [(lit "success", VBool true);
                          (lit "settings", VObj Sample.stored_settings)]))
                true)
             Sample.asking))
  = lit "Antwoord in het Nederlands.".
Proof.
  refine (proj1
            (@loadSettings_fills_field
               (Sample.env_with
                  (Sample.replying 200
                     (VObj [(lit "success", VBool true);
                            (lit "settings", VObj Sample.stored_settings)]))
                  true)
               Sample.asking _ _ Sample.stored_settings _ _ _ _ _)
            (lit "Antwoord in het Nederlands.") _);
    reflexivity.
Defined.

(** C10: a declined reset does nothing at all; a confirmed reset that the
    server accepts empties the settings field and reports success; a
    confirmed reset that fails in any way leaves the field as it was and
    reports an error. *)
Theorem resetSettings_effect env w :
  let after := final resetSettings env w in
  let answer := network env (requests w) DELETE_settings in
  (user_confirms env reset_question = false -> after = w)
  /\ (user_confirms env reset_question = true -> accepted answer = true ->
      defaultSystemPrompts_value (page after) = []
      /\ messageArea_innerHTML (page after)
         = message_markup "success" "Instellingen gereset naar standaardwaarden!")
  /\ (user_confirms env reset_question = true -> accepted answer = false ->
      defaultSystemPrompts_value (page after)
      = defaultSystemPrompts_value (page w)
      /\ exists reason,
           messageArea_innerHTML (page after)
           = lit "<div class=" ++ dq ++ lit "error" ++ dq ++ lit ">"
               ++ lit "Fout bij resetten instellingen: " ++ reason
               ++ lit "</div>").
Proof.
  cbv zeta. unfold resetSettings.
  split; [| split].
  - intros Hno. run. rewrite Hno. run. destruct w; reflexivity.
  - intros Hyes Hacc. run. rewrite Hyes. run.
    change (make_request _ _) with DELETE_settings.
    destruct (network env (requests w) DELETE_settings) as [e | r];
      [discriminate |].
    simpl in Hacc. apply andb_true_iff in Hacc. destruct Hacc as [Hok Hbody].
    rewrite Hok. run.
    destruct (json_outcome r) as [[| | | | | |members] | e]; try discriminate.
    run. rewrite Hbody. run. split; reflexivity.
  - intros Hyes Hrej. run. rewrite Hyes. run.
    change (make_request _ _) with DELETE_settings.
    destruct (network env (requests w) DELETE_settings) as [e | r]; run.
    + split; [reflexivity | eexists; reflexivity].
    + simpl in Hrej. destruct (ok r); simpl in Hrej; run.
      * destruct (json_outcome r) as [[| | | | | |members] | e]; run;
          try (split; [reflexivity | eexists; reflexivity]).
        rewrite Hrej. run.
        destruct (to_string (js_or (member (lit "message") members) unknown_error));
          run; split; [reflexivity | eexists; reflexivity
                      | reflexivity | eexists; reflexivity].
      * split; [reflexivity | eexists; reflexivity].
Qed.

Lemma resetSettings_effect_witness :
  let env := Sample.env_with
               (Sample.replying 200 (VObj [(lit "success", VBool true)])) true in
  defaultSystemPrompts_value (page (final resetSettings env Sample.asking)) = []
  /\ messageArea_innerHTML (page (final resetSettings env Sample.asking))
     = message_markup "success" "Instellingen gereset naar standaardwaarden!".
Proof.
  cbv zeta.
  apply (proj1 (proj2
           (resetSettings_effect
              (Sample.env_with
                 (Sample.replying 200 (VObj [(lit "success", VBool true)])) true)
              Sample.asking)));
    reflexivity.
Defined.

(** ** Rendering the results *)

(** A callback that appends the link of each source it is given appends
    them all, in order, and touches nothing. *)
Lemma iterate_sources (callback : value -> jsstring -> M jsstring) :
  (forall entry source acc env w,
      gives_source entry source ->
      callback (VObj entry) acc env w
      = (Normal (acc ++ link_markup (source_url source) (source_title source)),
         w)) ->
  forall entries sources,
    Forall2 gives_source entries sources ->
    forall acc env w,
      iterate callback (map VObj entries) acc env w
      = (Normal
           (acc ++ flat_map
                     (fun source =>
                        link_markup (source_url source) (source_title source))
                     sources),
         w).
Proof.
  intros Hcallback entries sources Hgives.
  induction Hgives as [| entry source entries sources Hentry _ IH];
    intros acc env w; simpl.
  - rewrite app_nil_r. reflexivity.
  - unfold bind. rewrite (Hcallback entry source acc env w Hentry), IH.
    rewrite <- app_assoc. reflexivity.
Qed.

(** The callback of [displayResults], on an entry that gives a source. *)
Ltac link_of_source :=
  let Hurl := fresh "Hurl" in
  let Htitle := fresh "Htitle" in
  intros ? ? ? ? ? [Hurl Htitle];
  run; rewrite Hurl; run; rewrite Htitle; reflexivity.

Lemma displayResults_rendered members output answer sources env w :
  member (lit "llm_output") members = VObj output ->
  dom_string (js_or (member (lit "summary") output) no_summary) = Some answer ->
  lists_sources (member (lit "sources_used") output) sources ->
  displayResults (VObj members) env w
  = (Normal tt,
     {| page := rendered answer (references_markup sources) (page w);
        requests := requests w;
        console := console w |}).
Proof.
  intros Hllm Hanswer Hsources. unfold displayResults. run.
  rewrite Hllm. run. rewrite Hanswer. run.
  inversion Hsources as [Hs | Hs | entries sources' Hgives Hs]; subst; run.
  - reflexivity.
  - reflexivity.
  - destruct Hgives as [| entry source entries sources Hentry Hgives].
    + reflexivity.
    + cbn [truthy map List.length number_of_nat num_sign]. unfold forEach.
      cbv beta iota.
      change (VObj entry :: map VObj entries) with (map VObj (entry :: entries)).
      rewrite iterate_sources with (sources := source :: sources);
        [reflexivity | link_of_source | constructor; assumption].
Qed.





(** ** Reporting failures *)

Lemma normally_throw {A} e Q : normally (@throw A e) Q.
Proof. intros env w a after H. discriminate. Qed.

Lemma normally_bind {A B} (m : M A) (k : A -> M B) Q :
  (forall a, normally (k a) Q) -> normally (bind m k) Q.
Proof.
  intros Hk env w b after. unfold bind.
  destruct (m env w) as [[a | e] w1]; [apply Hk | discriminate].
Qed.

Lemma normally_showMessage msg type : normally (showMessage msg type) reports.
Proof.
  intros env w a after H. inversion H; subst. exists type, msg. reflexivity.
Qed.

(** A guarded block whose normal completions and whose handler both end
    with a message always ends with a message. *)
Lemma try_catch_reports {A} (body : M A) handler :
  normally body reports ->
  (forall e env w, reports (final (handler e) env w)) ->
  forall env w, reports (final (try_catch body handler) env w).
Proof.
  intros Hbody Hhandler env w. unfold final, try_catch.
  destruct (body env w) as [[a | e] w1] eqn:Hrun.
  - exact (Hbody env w a w1 Hrun).
  - apply Hhandler.
Qed.

Lemma handler_reports label text e env w :
  reports (final (console_error label e ;; showMessage text (lit "error")) env w).
Proof. exists (lit "error"), text. reflexivity. Qed.

Ltac ends_with_message :=
  repeat match goal with
    | |- normally (bind _ _) _ => apply normally_bind; intro
    | |- normally (if ?b then _ else _) _ => destruct b
    | |- normally (throw _) _ => apply normally_throw
    | |- normally (showMessage _ _) _ => apply normally_showMessage
    end.

(** Every save ends with a message, whatever the server did. *)
Lemma saveSettings_reports env w : reports (final saveSettings env w).
Proof.
  unfold saveSettings, final. rewrite run_read_bind.
  apply try_catch_reports.
  - ends_with_message.
  - intros. apply handler_reports.
Qed.

(** Every search that starts ends with a message. *)
Lemma performSearch_reports env w :
  trim (question_value (page w)) <> [] ->
  reports (final performSearch env w).
Proof.
  intros Hq. apply truthy_string in Hq.
  unfold performSearch, final. rewrite run_read_bind, run_read_bind, Hq.
  cbn [negb]. cbv iota.
  unfold hideMessage, hideAnswerSection.
  rewrite run_showLoading_bind, !run_write_bind.
  unfold try_catch_finally.
  match goal with
  | |- context [try_catch ?b ?h ?e ?w0] =>
      pose proof (@try_catch_reports _ b h) as Hreports;
      specialize (Hreports ltac:(ends_with_message)
                    ltac:(intros; apply handler_reports) e w0);
      unfold final in Hreports;
      destruct (try_catch b h e w0) as [done w1]
  end.
  destruct Hreports as [type [text Htext]].
  exists type, text. rewrite <- Htext. reflexivity.
Qed.

(** A load that fails at the HTTP level, or whose body does not decode,
    is reported and leaves the settings field alone. *)
Lemma loadSettings_reports_transport_failure env w :
  match network env (requests w) GET_settings with
  | Rejected _ => True
  | Responded r =>
      ok r = false \/ exists e, json_outcome r = Throw e
  end ->
  messageArea_innerHTML (page (final loadSettings env w))
  = message_markup "error" "Kon instellingen niet laden"
  /\ defaultSystemPrompts_value (page (final loadSettings env w))
     = defaultSystemPrompts_value (page w).
Proof.
  unfold loadSettings. run.
  change (make_request _ _) with GET_settings.
  destruct (network env (requests w) GET_settings) as [e | r]; run.
  - intros _. split; reflexivity.
  - intros [Hok | [e He]].
    + rewrite Hok. run. split; reflexivity.
    + rewrite He. destruct (ok r); run; split; reflexivity.
Qed.

(** *** No handler lets an error out *)

Lemma contained_try_catch {A} (body : M A) handler :
  (forall e, contained (handler e)) -> contained (try_catch body handler).
Proof.
  intros Hh env w. unfold outcome, try_catch.
  destruct (body env w) as [[a | e] w1].
  - exists a. reflexivity.
  - apply Hh.
Qed.

Lemma contained_handler label text e :
  contained (console_error label e ;; showMessage text (lit "error")).
Proof. intros env w. exists tt. reflexivity. Qed.

Lemma loadSettings_contained : contained loadSettings.
Proof. apply contained_try_catch. intro. apply contained_handler. Qed.

Lemma saveSettings_contained : contained saveSettings.
Proof.
  intros env w. unfold saveSettings, outcome. rewrite run_read_bind.
  apply contained_try_catch. intro. apply contained_handler.
Qed.

Lemma resetSettings_contained : contained resetSettings.
Proof.
  intros env w. unfold resetSettings, outcome. rewrite run_confirm_bind.
  destruct (user_confirms env reset_question); cbn [negb]; cbv iota.
  - apply contained_try_catch. intro. apply contained_handler.
  - exists tt. reflexivity.
Qed.

Lemma performSearch_contained : contained performSearch.
Proof.
  intros env w. unfold performSearch, outcome.
  rewrite run_read_bind, run_read_bind.
  destruct (truthy (VStr (trim (question_value (page w))))); cbn [negb]; cbv iota.
  - unfold hideMessage, hideAnswerSection.
    rewrite run_showLoading_bind, !run_write_bind. unfold try_catch_finally.
    match goal with
    | |- context [try_catch ?b ?h ?e ?w0] =>
        destruct (@contained_try_catch _ b h
                    ltac:(intro; apply contained_handler) e w0) as [a Ha];
        unfold outcome in Ha;
        destruct (try_catch b h e w0) as [done w1]
    end.
    simpl in Ha. subst done. exists a. reflexivity.
  - exists tt. reflexivity.
Qed.

(** ** The refusal that [loadSettings] does not report *)

(** C1: a load answered 2xx with a document whose [success] is falsy
    completes normally, issues its one request, and shows no message: the
    page and the console are exactly as before. *)
Theorem loadSettings_refusal_unreported env w r members :
  network env (requests w) GET_settings = Responded r ->
  ok r = true ->
  json_outcome r = Normal (VObj members) ->
  truthy (member (lit "success") members) = false ->
  loadSettings env w
  = (Normal tt,
     {| page := page w;
        requests := requests w ++ [GET_settings];
        console := console w |}).
Proof.
  intros Hnet Hok Hjson Hsuccess. unfold loadSettings. run.
  change (make_request _ _) with GET_settings.
  rewrite Hnet. run. rewrite Hok. run. rewrite Hjson. run.
  rewrite Hsuccess. run. rewrite Hsuccess. reflexivity.
Qed.

Lemma loadSettings_refusal_unreported_witness :
  loadSettings
    (Sample.env_with
       (Sample.replying 200 (VObj [(lit "success", VBool false)])) true)
    Sample.blank
  = (Normal tt,
     {| page := page Sample.blank;
        requests := [GET_settings];
        console := [] |}).
Proof.
  apply (@loadSettings_refusal_unreported
           (Sample.env_with
              (Sample.replying 200 (VObj [(lit "success", VBool false)])) true)
           Sample.blank
           {| status := 200;
              json_outcome := Normal (VObj [(lit "success", VBool false)]) |}
           [(lit "success", VBool false)]);
    reflexivity.
Defined.

(** C4: at a page with an empty message area, a load answered 200 with
    [success] false leaves the message area empty; the settings field
    keeps its content. *)
Theorem loadSettings_refused_stays_silent :
  let env := Sample.env_with (Sample.replying 200 Sample.refused_settings) true in
  let after := final loadSettings env Sample.asking in
  outcome loadSettings env Sample.asking = Normal tt
  /\ messageArea_innerHTML (page after) = []
  /\ defaultSystemPrompts_value (page after)
     = defaultSystemPrompts_value (page Sample.asking)
  /\ console after = [].
Proof. vm_compute. repeat split. Qed.

(** ** Whitespace around the question *)

Lemma trim_start_blank s : all_space s = true -> trim_start s = [].
Proof.
  induction s as [| c rest IH]; simpl; [reflexivity |].
  intros H. apply andb_true_iff in H. destruct H as [Hc Hrest].
  rewrite Hc. auto.
Qed.

Lemma trim_start_split s :
  exists pre, s = pre ++ trim_start s /\ all_space pre = true.
Proof.
  induction s as [| c rest [pre [Hsplit Hpre]]]; simpl.
  - exists []. split; reflexivity.
  - destruct (is_space c) eqn:Hc.
    + exists (c :: pre). simpl. rewrite Hc, Hpre. split; [| reflexivity].
      f_equal. exact Hsplit.
    + exists []. split; reflexivity.
Qed.

Lemma trim_start_head s c rest :
  trim_start s = c :: rest -> is_space c = false.
Proof.
  induction s as [| c0 s IH]; simpl; [discriminate |].
  destruct (is_space c0) eqn:Hc0; [exact IH |].
  intros H. inversion H; subst. exact Hc0.
Qed.

Lemma all_space_app a b : all_space (a ++ b) = all_space a && all_space b.
Proof. apply forallb_app. Qed.

Lemma all_space_rev s : all_space (rev s) = all_space s.
Proof.
  induction s as [| c rest IH]; simpl; [reflexivity |].
  rewrite all_space_app, IH. simpl. rewrite andb_true_r. apply andb_comm.
Qed.

(** What [trim] removes and what it keeps. *)
Lemma trim_split s :
  exists pre post,
    s = pre ++ trim s ++ post /\ all_space pre = true /\ all_space post = true.
Proof.
  destruct (trim_start_split s) as [pre [Hs Hpre]].
  destruct (trim_start_split (rev (trim_start s))) as [tail [Ht Htail]].
  exists pre, (rev tail). repeat split.
  - unfold trim. rewrite <- rev_app_distr, <- Ht, rev_involutive. exact Hs.
  - exact Hpre.
  - rewrite all_space_rev. exact Htail.
Qed.

Lemma trim_blank s : trim s = [] <-> all_space s = true.
Proof.
  split.
  - intros H. destruct (trim_split s) as [pre [post [Hs [Hpre Hpost]]]].
    rewrite Hs, H, !all_space_app, Hpre, Hpost. reflexivity.
  - intros H. unfold trim. rewrite (trim_start_blank s H). reflexivity.
Qed.

Lemma trim_last s c rest :
  rev (trim s) = c :: rest -> is_space c = false.
Proof.
  unfold trim. rewrite rev_involutive. apply trim_start_head.
Qed.

Lemma trim_head s c rest : trim s = c :: rest -> is_space c = false.
Proof.
  intros H.
  destruct (trim_start_split (rev (trim_start s))) as [tail [Ht Htail]].
  apply (f_equal (@rev N)) in Ht.
  rewrite rev_involutive, rev_app_distr in Ht.
  fold (trim s) in Ht. rewrite H in Ht. simpl in Ht.
  exact (trim_start_head s Ht).
Qed.

Lemma truthy_trim s : truthy (VStr (trim s)) = negb (all_space s).
Proof.
  destruct (all_space s) eqn:Hs.
  - apply trim_blank in Hs. rewrite Hs. reflexivity.
  - destruct (trim s) eqn:Ht; [| reflexivity].
    apply trim_blank in Ht. congruence.
Qed.

(** X1: a search sends a request exactly when the question holds a code
    unit that is not whitespace; a question of whitespace only sends
    nothing. *)
Theorem search_needs_visible_question env w :
  requests (final performSearch env w)
  = if all_space (question_value (page w)) then requests w
    else requests w
           ++ [POST_search (trim (question_value (page w)))
                 (trim (doctorInstructions_value (page w)))].
Proof.
  rewrite performSearch_requests, truthy_trim.
  destruct (all_space (question_value (page w))); reflexivity.
Qed.

(** X2: the query a search sends is the question without the whitespace
    around it: the question is whitespace, then the query, then
    whitespace, and the query neither starts nor ends with whitespace. *)
Theorem search_query_is_question_core env w :
  all_space (question_value (page w)) = false ->
  exists query instructions pre post,
    requests (final performSearch env w)
    = requests w ++ [POST_search query instructions]
    /\ question_value (page w) = pre ++ query ++ post
    /\ all_space pre = true /\ all_space post = true
    /\ (exists first rest, query = first :: rest /\ is_space first = false)
    /\ (exists last rest, query = rest ++ [last] /\ is_space last = false).
Proof.
  intros Hq.
  destruct (trim_split (question_value (page w))) as [pre [post [Hs [Hpre Hpost]]]].
  exists (trim (question_value (page w))),
         (trim (doctorInstructions_value (page w))), pre, post.
  split; [| split; [exact Hs | split; [exact Hpre | split; [exact Hpost |]]]].
  - rewrite performSearch_requests, truthy_trim, Hq. reflexivity.
  - assert (Hne : trim (question_value (page w)) <> []).
    { intros H. apply trim_blank in H. congruence. }
    split.
    + destruct (trim (question_value (page w))) as [| c rest] eqn:Ht;
        [congruence |].
      exists c, rest. split; [reflexivity | exact (trim_head _ Ht)].
    + destruct (rev (trim (question_value (page w)))) as [| c rest] eqn:Hr.
      * apply (f_equal (@rev N)) in Hr. rewrite rev_involutive in Hr.
        simpl in Hr. congruence.
      * exists c, (rev rest). split; [| exact (trim_last _ Hr)].
        apply (f_equal (@rev N)) in Hr. rewrite rev_involutive in Hr.
        exact Hr.
Qed.

Lemma search_query_is_question_core_witness :
  exists query instructions pre post,
    requests (final performSearch (Sample.env_with Sample.offline true)
                Sample.asking)
    = [POST_search query instructions]
    /\ lit " Wat is griep?  " = pre ++ query ++ post
    /\ all_space pre = true /\ all_space post = true
    /\ (exists first rest, query = first :: rest /\ is_space first = false)
    /\ (exists last rest, query = rest ++ [last] /\ is_space last = false).
Proof.
  apply (search_query_is_question_core
           (Sample.env_with Sample.offline true) Sample.asking).
  reflexivity.
Defined.

(** ** What the handlers leave alone *)

Ltac frame_all := repeat (cbv zeta; frame_step).

Lemma displayResults_frame {X} (f : World -> X) data :
  (forall w x, f {| page := set_answerContent_innerHTML x (page w);
                    requests := requests w; console := console w |} = f w) ->
  (forall w x, f {| page := set_referencesContent_innerHTML x (page w);
                    requests := requests w; console := console w |} = f w) ->
  (forall w x, f {| page := set_answerSection_display x (page w);
                    requests := requests w; console := console w |} = f w) ->
  preserves f (displayResults data).
Proof.
  intros Hanswer Hreferences Hsection.
  unfold displayResults, showAnswerSection.
  repeat match goal with
    | |- preserves _ (assign set_answerContent_innerHTML _) =>
        apply preserves_assign; intros; apply Hanswer
    | |- preserves _ (write (set_referencesContent_innerHTML _)) =>
        apply preserves_write; intro; apply Hreferences
    | |- preserves _ (write (set_answerSection_display _)) =>
        apply preserves_write; intro; apply Hsection
    | |- _ => cbv zeta; frame_step
    end.
Qed.

(** X3: a search never changes what the user typed: the question, the
    doctor instructions and the settings field are the same after it,
    however the server answers. *)
Theorem search_keeps_typed_text env w :
  search_inputs (final performSearch env w) = search_inputs w
  /\ defaultSystemPrompts_value (page (final performSearch env w))
     = defaultSystemPrompts_value (page w).
Proof.
  assert (H : preserves
                (fun w => (search_inputs w, defaultSystemPrompts_value (page w)))
                performSearch).
  { unfold performSearch, showLoading, hideMessage, hideAnswerSection,
      showMessage.
    repeat match goal with
      | |- preserves _ (displayResults _) =>
          apply displayResults_frame; intros; reflexivity
      | |- _ => cbv zeta; frame_step
      end. }
  specialize (H env w).
  split; [exact (f_equal fst H) | exact (f_equal snd H)].
Qed.

(** X4: loading, saving and resetting the settings leave the search form,
    the displayed answer and the loading state as they were. *)
Theorem settings_handlers_leave_search_alone env w :
  let untouched (handler : M unit) :=
    search_inputs (final handler env w) = search_inputs w
    /\ answer_area (final handler env w) = answer_area w
    /\ loading_state (final handler env w) = loading_state w in
  untouched loadSettings /\ untouched saveSettings /\ untouched resetSettings.
Proof.
  cbv zeta.
  assert (H : forall handler : M unit,
             preserves (fun w => (search_inputs w, answer_area w, loading_state w))
               handler ->
             search_inputs (final handler env w) = search_inputs w
             /\ answer_area (final handler env w) = answer_area w
             /\ loading_state (final handler env w) = loading_state w).
  { intros handler Hp. specialize (Hp env w).
    split; [exact (f_equal (fun t => fst (fst t)) Hp) |].
    split; [exact (f_equal (fun t => snd (fst t)) Hp) |].
    exact (f_equal snd Hp). }
  split; [| split]; apply H.
  - unfold loadSettings, showMessage. frame_all.
  - unfold saveSettings, showMessage. frame_all.
  - unfold resetSettings, showMessage. frame_all.
Qed.

(** X5: [displayResults] changes the displayed answer and nothing else,
    whatever document it is given and whether it completes or throws. *)
Theorem displayResults_touches_only_answer data env w :
  outside_answer (final (displayResults data) env w) = outside_answer w.
Proof.
  apply (@displayResults_frame _ outside_answer data); intros; reflexivity.
Qed.

(** ** What saving reports *)

Ltac name_request request :=
  change (make_request _ _) with request.

(** X6: a save ends in one of two ways.  When the server accepts, the
    success message shows and nothing is logged.  Otherwise one error is
    logged on the console and the message area shows that same error's
    text.  Nothing else of the page changes. *)
Theorem save_reports_what_it_logs env w :
  let request := POST_settings (trim (defaultSystemPrompts_value (page w))) in
  if accepted (network env (requests w) request) then
    saveSettings env w
    = (Normal tt,
       {| page := set_messageArea_innerHTML
                    (message_markup "success" "Instellingen succesvol opgeslagen!")
                    (page w);
          requests := requests w ++ [request];
          console := console w |})
  else
    exists e,
      saveSettings env w
      = (Normal tt,
         {| page := set_messageArea_innerHTML
                      (error_markup
                         (lit "Fout bij opslaan instellingen: " ++ message e))
                      (page w);
            requests := requests w ++ [request];
            console := console w ++ [(lit "Settings save error:", e)] |}).
Proof.
  cbv zeta. unfold saveSettings. run.
  name_request (POST_settings (trim (defaultSystemPrompts_value (page w)))).
  destruct (network env (requests w)
              (POST_settings (trim (defaultSystemPrompts_value (page w)))))
    as [e | r]; simpl accepted; run.
  - eexists. reflexivity.
  - destruct (ok r); simpl andb; run; [| eexists; reflexivity].
    destruct (json_outcome r) as [[| | | | | | members] | e]; run;
      try (eexists; reflexivity).
    destruct (truthy (member (lit "success") members)); run;
      [reflexivity |].
    destruct (to_string (js_or (member (lit "message") members) unknown_error));
      run; eexists; reflexivity.
Qed.

(** X7: the text a failed save shows.  A rejected fetch shows the
    rejection's message; a status outside 200-299 shows the status, the
    body not being looked at; a decoded refusal shows the server's
    [message], and 'Onbekende fout opgetreden' when there is none. *)
Theorem save_failure_text env w :
  let answer :=
    network env (requests w)
      (POST_settings (trim (defaultSystemPrompts_value (page w)))) in
  let shown := messageArea_innerHTML (page (final saveSettings env w)) in
  let failed reason :=
    shown = error_markup (lit "Fout bij opslaan instellingen: " ++ reason) in
  (forall e, answer = Rejected e -> failed (message e))
  /\ (forall r, answer = Responded r -> ok r = false ->
      failed (lit "HTTP error! status: " ++ decimal (status r)))
  /\ (forall r members,
        answer = Responded r -> ok r = true ->
        json_outcome r = Normal (VObj members) ->
        truthy (member (lit "success") members) = false ->
        (forall text, member (lit "message") members = VStr text ->
                      text <> [] -> failed text)
        /\ (member (lit "message") members = VUndefined ->
            failed (lit "Onbekende fout opgetreden"))).
Proof.
  cbv zeta. unfold saveSettings. run.
  name_request (POST_settings (trim (defaultSystemPrompts_value (page w)))).
  split; [| split].
  - intros e Hnet. rewrite Hnet. reflexivity.
  - intros r Hnet Hok. rewrite Hnet. run. rewrite Hok. reflexivity.
  - intros r members Hnet Hok Hjson Hsuccess.
    rewrite Hnet. run. rewrite Hok. run. rewrite Hjson. run.
    rewrite Hsuccess. run. split.
    + intros text Htext Hne. rewrite Htext.
      destruct text; [congruence | reflexivity].
    + intros Hnone. rewrite Hnone. reflexivity.
Qed.

Lemma save_failure_text_witness :
  messageArea_innerHTML
    (page (final saveSettings
             (Sample.env_with (Sample.replying 404 (VObj [(lit "success", VBool true)]))
                true)
             Sample.asking))
  = error_markup (lit "Fout bij opslaan instellingen: HTTP error! status: 404").
Proof.
  apply (proj1 (proj2
           (save_failure_text
              (Sample.env_with
                 (Sample.replying 404 (VObj [(lit "success", VBool true)])) true)
              Sample.asking))
           {| status := 404;
              json_outcome := Normal (VObj [(lit "success", VBool true)]) |});
    reflexivity.
Defined.

(** ** How a started search ends *)

(** Run a search whose question is not blank up to its fetch. *)
Ltac start_search Hq :=
  unfold performSearch; run;
  rewrite truthy_trim, Hq; run;
  match goal with
  | w : World |- _ =>
      name_request (POST_search (trim (question_value (page w)))
                      (trim (doctorInstructions_value (page w))))
  end.

(** X8: a search that fails at the transport shows the reason as an
    error: the rejection's message, or the status when it is outside
    200-299, without looking at the body.  The answer section is hidden,
    and the answer and references it held are still there. *)
Theorem search_transport_failure env w :
  all_space (question_value (page w)) = false ->
  let answer :=
    network env (requests w)
      (POST_search (trim (question_value (page w)))
         (trim (doctorInstructions_value (page w)))) in
  let after := final performSearch env w in
  let failed reason :=
    messageArea_innerHTML (page after)
    = error_markup (lit "Fout bij zoeken: " ++ reason)
    /\ answer_area after
       = (answerContent_innerHTML (page w), referencesContent_innerHTML (page w),
          lit "none") in
  (forall e, answer = Rejected e -> failed (message e))
  /\ (forall r, answer = Responded r -> ok r = false ->
      failed (lit "HTTP error! status: " ++ decimal (status r))).
Proof.
  intros Hq. cbv zeta. start_search Hq. split.
  - intros e Hnet. rewrite Hnet. split; reflexivity.
  - intros r Hnet Hok. rewrite Hnet. run. rewrite Hok. split; reflexivity.
Qed.

Lemma search_transport_failure_witness :
  let after :=
    final performSearch
      (Sample.env_with (Sample.replying 503 (VObj Sample.griep_answer)) true)
      Sample.asking in
  messageArea_innerHTML (page after)
  = error_markup (lit "Fout bij zoeken: HTTP error! status: 503")
  /\ answer_area after
     = (lit "vorig antwoord", lit "<p>vorige bronnen</p>", lit "none").
Proof.
  apply (proj2
           (search_transport_failure
              (Sample.env_with (Sample.replying 503 (VObj Sample.griep_answer)) true)
              Sample.asking eq_refl)
           {| status := 503; json_outcome := Normal (VObj Sample.griep_answer) |});
    reflexivity.
Defined.

(** X9: a search the server refuses without a summary shows the server's
    [error_message] as an error, and 'Onbekende fout opgetreden' when
    there is none; where the [error_message] has no string conversion,
    the engine's TypeError message shows instead.  The answer section is
    hidden and what it held is still there. *)
Theorem search_refusal_without_summary env w r members :
  all_space (question_value (page w)) = false ->
  network env (requests w)
    (POST_search (trim (question_value (page w)))
       (trim (doctorInstructions_value (page w))))
  = Responded r ->
  ok r = true ->
  json_outcome r = Normal (VObj members) ->
  truthy (member (lit "success") members) = false ->
  (truthy (member (lit "llm_output") members) = false
   \/ exists output,
        member (lit "llm_output") members = VObj output
        /\ truthy (member (lit "summary") output) = false) ->
  let after := final performSearch env w in
  let told :=
    js_or (member (lit "error_message") members)
      (VStr (lit "Onbekende fout opgetreden")) in
  messageArea_innerHTML (page after)
  = error_markup
      (lit "Fout bij zoeken: "
         ++ match to_string told with
            | Some reason => reason
            | None => fault_message env (NoPrimitive told)
            end)
  /\ answer_area after
     = (answerContent_innerHTML (page w), referencesContent_innerHTML (page w),
        lit "none").
Proof.
  intros Hq Hnet Hok Hjson Hsuccess Hcontent. cbv zeta. start_search Hq.
  rewrite Hnet. run. rewrite Hok. run. rewrite Hjson. run.
  rewrite Hsuccess. run.
  destruct Hcontent as [Hnone | [output [Hllm Hsummary]]].
  - rewrite Hnone. run. rewrite Hnone.
    fold unknown_error.
    destruct (to_string (js_or (member (lit "error_message") members)
                           unknown_error));
      split; reflexivity.
  - rewrite Hllm. cbn [truthy]. run. rewrite Hsummary.
    fold unknown_error.
    destruct (to_string (js_or (member (lit "error_message") members)
                           unknown_error));
      split; reflexivity.
Qed.

Lemma search_refusal_without_summary_witness :
  let after :=
    final performSearch
      (Sample.env_with
         (Sample.replying 200
            (VObj [(lit "success", VBool false);
                   (lit "error_message", VStr (lit "Index niet beschikbaar"))]))
         true)
      Sample.asking in
  messageArea_innerHTML (page after)
  = error_markup (lit "Fout bij zoeken: Index niet beschikbaar")
  /\ answer_area after
     = (lit "vorig antwoord", lit "<p>vorige bronnen</p>", lit "none").
Proof.
  apply (@search_refusal_without_summary
           (Sample.env_with
              (Sample.replying 200
                 (VObj [(lit "success", VBool false);
                        (lit "error_message", VStr (lit "Index niet beschikbaar"))]))
              true)
           Sample.asking
           {| status := 200;
              json_outcome :=
                Normal (VObj [(lit "success", VBool false);
                              (lit "error_message",
                               VStr (lit "Index niet beschikbaar"))]) |}
           [(lit "success", VBool false);
            (lit "error_message", VStr (lit "Index niet beschikbaar"))]);
    try reflexivity.
  left. reflexivity.
Defined.

(** X10: a refusal that still carries a summary is displayed like an
    answer, provided the summary converts to a string and the sources
    are listed.  The server's [error_message] (or 'Onbekende fout
    opgetreden') then shows as a warning, not as an error, and nothing
    is logged; where the [error_message] has no string conversion, the
    answer stays displayed, and the engine's TypeError is logged and
    shown as a search error. *)
Theorem search_refusal_with_summary env w r members output answer sources :
  all_space (question_value (page w)) = false ->
  network env (requests w)
    (POST_search (trim (question_value (page w)))
       (trim (doctorInstructions_value (page w))))
  = Responded r ->
  ok r = true ->
  json_outcome r = Normal (VObj members) ->
  truthy (member (lit "success") members) = false ->
  member (lit "llm_output") members = VObj output ->
  truthy (member (lit "summary") output) = true ->
  to_string (member (lit "summary") output) = Some answer ->
  lists_sources (member (lit "sources_used") output) sources ->
  let after := final performSearch env w in
  let told :=
    js_or (member (lit "error_message") members)
      (VStr (lit "Onbekende fout opgetreden")) in
  answer_area after = (answer, references_markup sources, lit "block")
  /\ match to_string told with
     | Some reason =>
         messageArea_innerHTML (page after)
         = lit "<div class=" ++ dq ++ lit "warning" ++ dq ++ lit ">"
             ++ lit "Waarschuwing: " ++ reason ++ lit "</div>"
         /\ console after = console w
     | None =>
         messageArea_innerHTML (page after)
         = error_markup
             (lit "Fout bij zoeken: " ++ fault_message env (NoPrimitive told))
         /\ console after
            = console w
                ++ [(lit "Search error:",
                     JsError TypeErrorK (fault_message env (NoPrimitive told)))]
     end.
Proof.
  intros Hq Hnet Hok Hjson Hsuccess Hllm Hsummary Hanswer Hsources.
  assert (Hshown : dom_string (js_or (member (lit "summary") output) no_summary)
                   = Some answer).
  { unfold js_or. rewrite Hsummary.
    destruct (member (lit "summary") output); try discriminate; exact Hanswer. }
  cbv zeta. start_search Hq.
  rewrite Hnet. run. rewrite Hok. run. rewrite Hjson. run.
  rewrite Hsuccess. run. rewrite Hllm. cbn [truthy]. run. rewrite Hsummary.
  rewrite (displayResults_rendered members env _ Hllm Hshown Hsources). run.
  fold unknown_error.
  destruct (to_string (js_or (member (lit "error_message") members)
                         unknown_error));
    repeat split.
Qed.

Lemma search_refusal_with_summary_witness :
  let after :=
    final performSearch
      (Sample.env_with
         (Sample.replying 200
            (VObj [(lit "success", VBool false);
                   (lit "llm_output", VObj Sample.griep_output)]))
         true)
      Sample.asking in
  answer_area after
  = (lit "Griep is een virusinfectie.",
     references_markup Sample.griep_links, lit "block")
  /\ messageArea_innerHTML (page after)
     = lit "<div class=" ++ dq ++ lit "warning" ++ dq ++ lit ">"
         ++ lit "Waarschuwing: " ++ lit "Onbekende fout opgetreden"
         ++ lit "</div>"
  /\ console after = [].
Proof.
  apply (@search_refusal_with_summary
           (Sample.env_with
              (Sample.replying 200
                 (VObj [(lit "success", VBool false);
                        (lit "llm_output", VObj Sample.griep_output)]))
              true)
           Sample.asking
           {| status := 200;
              json_outcome :=
                Normal (VObj [(lit "success", VBool false);
                              (lit "llm_output", VObj Sample.griep_output)]) |}
           [(lit "success", VBool false);
            (lit "llm_output", VObj Sample.griep_output)]
           Sample.griep_output (lit "Griep is een virusinfectie.")
           Sample.griep_links);
    try reflexivity.
  apply (@sources_listed Sample.griep_sources Sample.griep_links).
  repeat constructor.
Defined.

(** X11: a search whose answer is displayed ends with the message
    'Zoekopdracht succesvol voltooid!' as a success, the message of the
    previous action gone, and logs nothing.  The answer is displayed
    when the summary (or the placeholder for a falsy one) converts to a
    string and the sources are listed. *)
Theorem search_success_message env w r members output answer sources :
  all_space (question_value (page w)) = false ->
  network env (requests w)
    (POST_search (trim (question_value (page w)))
       (trim (doctorInstructions_value (page w))))
  = Responded r ->
  ok r = true ->
  json_outcome r = Normal (VObj members) ->
  truthy (member (lit "success") members) = true ->
  member (lit "llm_output") members = VObj output ->
  dom_string (js_or (member (lit "summary") output) no_summary) = Some answer ->
  lists_sources (member (lit "sources_used") output) sources ->
  messageArea_innerHTML (page (final performSearch env w))
  = message_markup "success" "Zoekopdracht succesvol voltooid!"
  /\ console (final performSearch env w) = console w
  /\ outcome performSearch env w = Normal tt.
Proof.
  intros Hq Hnet Hok Hjson Hsuccess Hllm Hanswer Hsources. start_search Hq.
  rewrite Hnet. run. rewrite Hok. run. rewrite Hjson. run.
  rewrite Hsuccess. run.
  rewrite (displayResults_rendered members env _ Hllm Hanswer Hsources). run.
  repeat split.
Qed.

Lemma search_success_message_witness :
  let env := Sample.env_with (Sample.replying 200 (VObj Sample.griep_answer)) true in
  messageArea_innerHTML (page (final performSearch env Sample.asking))
  = message_markup "success" "Zoekopdracht succesvol voltooid!"
  /\ console (final performSearch env Sample.asking) = []
  /\ outcome performSearch env Sample.asking = Normal tt.
Proof.
  apply (@search_success_message
           (Sample.env_with (Sample.replying 200 (VObj Sample.griep_answer)) true)
           Sample.asking
           {| status := 200; json_outcome := Normal (VObj Sample.griep_answer) |}
           Sample.griep_answer Sample.griep_output
           (lit "Griep is een virusinfectie.") Sample.griep_links);
    try reflexivity.
  apply (@sources_listed Sample.griep_sources Sample.griep_links).
  repeat constructor.
Defined.

(** X12: an answer that says [success] but has no [llm_output] is
    reported as a search error carrying the engine's TypeError message;
    the answer section is hidden, what it held is still there, and the
    TypeError is the one line logged. *)
Theorem search_success_without_output env w r members :
  all_space (question_value (page w)) = false ->
  network env (requests w)
    (POST_search (trim (question_value (page w)))
       (trim (doctorInstructions_value (page w))))
  = Responded r ->
  ok r = true ->
  json_outcome r = Normal (VObj members) ->
  truthy (member (lit "success") members) = true ->
  nullish (member (lit "llm_output") members) = true ->
  let after := final performSearch env w in
  let fault :=
    JsError TypeErrorK
      (fault_message env
         (ReadPropertyOf (member (lit "llm_output") members) (lit "summary"))) in
  messageArea_innerHTML (page after)
  = error_markup (lit "Fout bij zoeken: " ++ message fault)
  /\ answer_area after
     = (answerContent_innerHTML (page w), referencesContent_innerHTML (page w),
        lit "none")
  /\ console after = console w ++ [(lit "Search error:", fault)].
Proof.
  intros Hq Hnet Hok Hjson Hsuccess Hnull. cbv zeta. start_search Hq.
  rewrite Hnet. run. rewrite Hok. run. rewrite Hjson. run.
  rewrite Hsuccess. run. unfold displayResults. run.
  destruct (member (lit "llm_output") members); try discriminate;
    repeat split.
Qed.

Lemma search_success_without_output_witness :
  let after :=
    final performSearch
      (Sample.env_with (Sample.replying 200 (VObj [(lit "success", VBool true)]))
         true)
      Sample.asking in
  messageArea_innerHTML (page after)
  = error_markup (lit "Fout bij zoeken: Cannot read properties")
  /\ answer_area after
     = (lit "vorig antwoord", lit "<p>vorige bronnen</p>", lit "none")
  /\ console after
     = [(lit "Search error:",
         JsError TypeErrorK (lit "Cannot read properties"))].
Proof.
  apply (@search_success_without_output
           (Sample.env_with
              (Sample.replying 200 (VObj [(lit "success", VBool true)])) true)
           Sample.asking
           {| status := 200;
              json_outcome := Normal (VObj [(lit "success", VBool true)]) |}
           [(lit "success", VBool true)]);
    reflexivity.
Defined.

(** ** A source that is not an object *)

(** The walk over the sources stops at the first element the callback
    throws on, the elements before it leaving no trace in the world. *)
Lemma iterate_stops (callback : value -> jsstring -> M jsstring)
    bad (fault : Env -> js_error) :
  (forall entry source acc env w,
      gives_source entry source ->
      callback (VObj entry) acc env w
      = (Normal (acc ++ link_markup (source_url source) (source_title source)),
         w)) ->
  (forall acc env w, callback bad acc env w = (Throw (fault env), w)) ->
  forall good sources,
    Forall2 gives_source good sources ->
    forall rest acc env w,
      iterate callback (map VObj good ++ bad :: rest) acc env w
      = (Throw (fault env), w).
Proof.
  intros Hgood Hbad good sources Hgives.
  induction Hgives as [| entry source good sources Hentry _ IH];
    intros rest acc env w; simpl.
  - unfold bind. rewrite Hbad. reflexivity.
  - unfold bind. rewrite (Hgood entry source acc env w Hentry). apply IH.
Qed.

(** X13: displaying is not all or nothing.  When the summary converts to
    a string and the list of sources holds a [null] after any number of
    entries that give sources, [displayResults] throws the engine's
    TypeError with the new summary already in the answer, the references
    and the visibility of the section still as they were. *)
Theorem displayResults_stops_at_null_source
    members output answer good sources rest env w :
  member (lit "llm_output") members = VObj output ->
  dom_string (js_or (member (lit "summary") output) no_summary) = Some answer ->
  Forall2 gives_source good sources ->
  member (lit "sources_used") output = VArr (map VObj good ++ VNull :: rest) ->
  displayResults (VObj members) env w
  = (Throw (JsError TypeErrorK
              (fault_message env (ReadPropertyOf VNull (lit "url")))),
     {| page := set_answerContent_innerHTML answer (page w);
        requests := requests w;
        console := console w |}).
Proof.
  intros Hllm Hanswer Hgives Hsources. unfold displayResults. run.
  rewrite Hllm. run. rewrite Hanswer. run. rewrite Hsources. run.
  cbn [truthy]. cbv iota.
  rewrite length_app, length_map. cbn [List.length].
  rewrite Nat.add_succ_r.
  cbn [number_of_nat num_sign truthy]. cbv iota beta.
  unfold forEach.
  rewrite iterate_stops
    with (sources := sources)
         (fault := fun env =>
                     JsError TypeErrorK
                       (fault_message env (ReadPropertyOf VNull (lit "url"))));
    [reflexivity | link_of_source | intros; reflexivity | exact Hgives].
Qed.

Lemma displayResults_stops_at_null_source_witness :
  let data :=
    [(lit "llm_output",
      VObj [(lit "summary", VStr (lit "Nieuw antwoord"));
            (lit "sources_used",
             VArr (map VObj [Sample.source "Richtlijn" "https://example.org/r"]
                     ++ VNull :: []))])] in
  let after :=
    final (displayResults (VObj data)) (Sample.env_with Sample.offline true)
      Sample.asking in
  answer_area after
  = (lit "Nieuw antwoord", lit "<p>vorige bronnen</p>", lit "block")
  /\ outcome (displayResults (VObj data)) (Sample.env_with Sample.offline true)
       Sample.asking
     = Throw (JsError TypeErrorK (lit "Cannot read properties")).
Proof.
  cbv zeta. unfold final, outcome.
  assert (Hgives : Forall2 gives_source
                     [Sample.source "Richtlijn" "https://example.org/r"]
                     [{| source_url := lit "https://example.org/r";
                         source_title := lit "Richtlijn" |}]).
  { repeat constructor. }
  rewrite (@displayResults_stops_at_null_source
             [(lit "llm_output",
               VObj [(lit "summary", VStr (lit "Nieuw antwoord"));
                     (lit "sources_used",
                      VArr (map VObj [Sample.source "Richtlijn" "https://example.org/r"]
                              ++ VNull :: []))])]
             [(lit "summary", VStr (lit "Nieuw antwoord"));
              (lit "sources_used",
               VArr (map VObj [Sample.source "Richtlijn" "https://example.org/r"]
                       ++ VNull :: []))]
             (lit "Nieuw antwoord")
             [Sample.source "Richtlijn" "https://example.org/r"]
             [{| source_url := lit "https://example.org/r";
                 source_title := lit "Richtlijn" |}]
             []
             (Sample.env_with Sample.offline true) Sample.asking
             eq_refl eq_refl Hgives eq_refl).
  split; reflexivity.
Defined.

(** ** More on loading and resetting the settings *)

(** X14: what a successful load does with [default_system_prompts].  A
    falsy one ([null], [false], [0], the empty string, or none) empties
    the settings field, so that [null] never shows as text.  A truthy
    one that converts to a string is shown as that string.  A truthy one
    without conversion leaves the field as it was and is reported as a
    failed load. *)
Theorem loadSettings_field_content env w r members settings :
  network env (requests w) GET_settings = Responded r ->
  ok r = true ->
  json_outcome r = Normal (VObj members) ->
  truthy (member (lit "success") members) = true ->
  member (lit "settings") members = VObj settings ->
  let prompts := member (lit "default_system_prompts") settings in
  let after := page (final loadSettings env w) in
  if truthy prompts then
    match to_string prompts with
    | Some text => defaultSystemPrompts_value after = text
    | None =>
        defaultSystemPrompts_value after = defaultSystemPrompts_value (page w)
        /\ messageArea_innerHTML after
           = message_markup "error" "Kon instellingen niet laden"
    end
  else defaultSystemPrompts_value after = [].
Proof.
  intros Hnet Hok Hjson Hsuccess Hsettings. cbv zeta.
  unfold loadSettings. run. name_request GET_settings.
  rewrite Hnet. run. rewrite Hok. run. rewrite Hjson. run.
  rewrite Hsuccess. run. rewrite Hsettings. cbn [truthy]. run.
  unfold js_or.
  destruct (truthy (member (lit "default_system_prompts") settings)) eqn:Htruthy.
  - assert (Hsame : dom_string (member (lit "default_system_prompts") settings)
                    = to_string (member (lit "default_system_prompts") settings)).
    { destruct (member (lit "default_system_prompts") settings);
        try discriminate; reflexivity. }
    rewrite Hsame.
    destruct (to_string (member (lit "default_system_prompts") settings));
      [reflexivity | split; reflexivity].
  - reflexivity.
Qed.

Lemma loadSettings_field_content_witness :
  defaultSystemPrompts_value
    (page (final loadSettings
             (Sample.env_with
                (Sample.replying 200
                   (VObj [(lit "success", VBool true);
                          (lit "settings",
                           VObj [(lit "default_system_prompts", VNull)])]))
                true)
             Sample.asking))
  = [].
Proof.
  apply (@loadSettings_field_content
           (Sample.env_with
              (Sample.replying 200
                 (VObj [(lit "success", VBool true);
                        (lit "settings",
                         VObj [(lit "default_system_prompts", VNull)])]))
              true)
           Sample.asking
           {| status := 200;
              json_outcome :=
                Normal (VObj [(lit "success", VBool true);
                              (lit "settings",
                               VObj [(lit "default_system_prompts", VNull)])]) |}
           [(lit "success", VBool true);
            (lit "settings", VObj [(lit "default_system_prompts", VNull)])]
           [(lit "default_system_prompts", VNull)]);
    reflexivity.
Defined.

(** X15: a load answered with [success] but without [settings] changes
    nothing on the page and logs nothing: the field keeps what it held
    and no message shows. *)
Theorem loadSettings_without_settings env w r members :
  network env (requests w) GET_settings = Responded r ->
  ok r = true ->
  json_outcome r = Normal (VObj members) ->
  truthy (member (lit "success") members) = true ->
  truthy (member (lit "settings") members) = false ->
  loadSettings env w
  = (Normal tt,
     {| page := page w;
        requests := requests w ++ [GET_settings];
        console := console w |}).
Proof.
  intros Hnet Hok Hjson Hsuccess Hsettings. unfold loadSettings. run.
  name_request GET_settings.
  rewrite Hnet. run. rewrite Hok. run. rewrite Hjson. run.
  rewrite Hsuccess. run. rewrite Hsettings. reflexivity.
Qed.

Lemma loadSettings_without_settings_witness :
  loadSettings
    (Sample.env_with (Sample.replying 200 (VObj [(lit "success", VBool true)])) true)
    Sample.asking
  = (Normal tt,
     {| page := page Sample.asking;
        requests := [GET_settings];
        console := [] |}).
Proof.
  apply (@loadSettings_without_settings
           (Sample.env_with
              (Sample.replying 200 (VObj [(lit "success", VBool true)])) true)
           Sample.asking
           {| status := 200;
              json_outcome := Normal (VObj [(lit "success", VBool true)]) |}
           [(lit "success", VBool true)]);
    reflexivity.
Defined.

(** X16: loading sends exactly one GET to /api/settings and a confirmed
    reset exactly one DELETE to /api/settings, both without headers and
    without a body; a declined reset sends nothing. *)
Theorem settings_request_shapes env w :
  (exists request,
     requests (final loadSettings env w) = requests w ++ [request]
     /\ method request = lit "GET"
     /\ url request = lit "http://localhost:8000/api/settings"
     /\ headers request = [] /\ body request = None)
  /\ (if user_confirms env reset_question then
        exists request,
          requests (final resetSettings env w) = requests w ++ [request]
          /\ method request = lit "DELETE"
          /\ url request = lit "http://localhost:8000/api/settings"
          /\ headers request = [] /\ body request = None
      else requests (final resetSettings env w) = requests w).
Proof.
  split.
  - exists GET_settings. rewrite loadSettings_requests. repeat split.
  - rewrite resetSettings_requests.
    destruct (user_confirms env reset_question); [| reflexivity].
    exists DELETE_settings. repeat split.
Qed.

(** ** Clearing, saving and copying the answer *)

Ltac run_desk :=
  cbv beta iota zeta
    delta [copyAnswer saveAnswer bindD lift read_innerText writeText then_catch
           clearAnswer hideAnswerSection showMessage write bind ret
           assign final outcome fst snd negb];
  cbn [world clipboard page requests console dom_string to_string];
  cbv beta iota.

(** X17: clearing erases whatever [displayResults] left, complete or
    interrupted: the world after clearing is the same as if nothing had
    been displayed.  The answer and the references are empty, the section
    is hidden and the message 'Antwoord gewist!' shows. *)
Theorem clearAnswer_erases_display data env w :
  final clearAnswer env (final (displayResults data) env w)
  = final clearAnswer env w
  /\ answer_area (final clearAnswer env w) = ([], [], lit "none")
  /\ messageArea_innerHTML (page (final clearAnswer env w))
     = message_markup "success" "Antwoord gewist!".
Proof.
  split; [| split; reflexivity].
  pose proof (@displayResults_frame _ outside_answer data
                ltac:(intros; reflexivity) ltac:(intros; reflexivity)
                ltac:(intros; reflexivity) env w) as Hframe.
  set (shown := final (displayResults data) env w) in *.
  unfold outside_answer, search_inputs, loading_state in Hframe.
  inversion Hframe as [[Hmessage Hfield Hquestion Hinstructions Hloading
                        Hbutton Hrequests Hconsole]].
  run_desk. unfold set_messageArea_innerHTML, set_answerSection_display,
    set_referencesContent_innerHTML, set_answerContent_innerHTML.
  cbn. rewrite Hfield, Hquestion, Hinstructions, Hloading, Hbutton,
    Hrequests, Hconsole. reflexivity.
Qed.

(** X18: saving the answer is a placeholder: whatever the answer holds, it
    only shows a message; no request is sent, the clipboard and the rest of
    the page are as before, and nothing is logged. *)
Theorem saveAnswer_stores_nothing browser env d :
  saveAnswer browser env d
  = (Normal tt,
     {| world :=
          {| page :=
               set_messageArea_innerHTML
                 (message_markup "success"
                    "Antwoord opgeslagen! (In een echte app zou dit naar een database gaan)")
                 (page (world d));
             requests := requests (world d);
             console := console (world d) |};
        clipboard := clipboard d |}).
Proof. reflexivity. Qed.

(** X19: copying an answer whose rendered text is blank writes nothing to
    the clipboard, does not even need a clipboard, and shows the warning
    that there is nothing to copy. *)
Theorem copyAnswer_blank browser env d :
  all_space (answer_innerText browser (page (world d))) = true ->
  fst (copyAnswer browser env d) = Normal tt
  /\ clipboard (snd (copyAnswer browser env d)) = clipboard d
  /\ messageArea_innerHTML (page (world (snd (copyAnswer browser env d))))
     = lit "<div class=" ++ dq ++ lit "warning" ++ dq ++ lit ">"
         ++ lit "Geen antwoord om te kopi" ++ e_diaeresis ++ lit "ren"
         ++ lit "</div>".
Proof.
  intros Hblank. run_desk. rewrite truthy_trim, Hblank.
  repeat split.
Qed.

Lemma copyAnswer_blank_witness :
  let browser := Desktop.plain None in
  let desk := Desktop.desk_of (Sample.world_with "vraag" "") in
  let cleared :=
    {| world := final clearAnswer (Sample.env_with Sample.offline true) (world desk);
       clipboard := clipboard desk |} in
  clipboard (snd (copyAnswer browser (Sample.env_with Sample.offline true) cleared))
  = lit "eerder gekopieerd".
Proof.
  cbv zeta.
  apply (copyAnswer_blank (Desktop.plain None)
           (Sample.env_with Sample.offline true)).
  reflexivity.
Defined.

(** X20: copying a non-blank answer with a clipboard at hand never throws.
    When the write is permitted the clipboard holds the rendered text as
    it is, untrimmed, and a success message shows; when it is refused the
    clipboard keeps what it held and an error message shows. *)
Theorem copyAnswer_writes_clipboard browser env d settle :
  all_space (answer_innerText browser (page (world d))) = false ->
  clipboard_api browser = Some settle ->
  let text := answer_innerText browser (page (world d)) in
  let after := snd (copyAnswer browser env d) in
  fst (copyAnswer browser env d) = Normal tt
  /\ match settle text with
     | Normal _ =>
         clipboard after = text
         /\ messageArea_innerHTML (page (world after))
            = message_markup "success" "Antwoord gekopieerd naar klembord!"
     | Throw _ =>
         clipboard after = clipboard d
         /\ messageArea_innerHTML (page (world after))
            = error_markup
                (lit "Fout bij kopi" ++ e_diaeresis ++ lit "ren naar klembord")
     end.
Proof.
  intros Hvisible Hapi. run_desk. rewrite truthy_trim, Hvisible.
  cbv beta iota delta [negb]. rewrite Hapi. cbv beta iota.
  destruct (settle (answer_innerText browser (page (world d)))) as [[] | e];
    repeat split.
Qed.

Lemma copyAnswer_writes_clipboard_witness :
  let browser := Desktop.plain (Some Desktop.permits) in
  let desk := Desktop.desk_of Sample.asking in
  clipboard (snd (copyAnswer browser (Sample.env_with Sample.offline true) desk))
  = lit "vorig antwoord".
Proof.
  cbv zeta.
  apply (proj2 (@copyAnswer_writes_clipboard
                  (Desktop.plain (Some Desktop.permits))
                  (Sample.env_with Sample.offline true)
                  (Desktop.desk_of Sample.asking) Desktop.permits
                  eq_refl eq_refl)).
Defined.

(** X21: without a clipboard in the browser, copying a non-blank answer
    throws the engine's TypeError out of [copyAnswer]; the page shows no
    message about it and nothing changes. *)
Theorem copyAnswer_without_clipboard browser env d :
  all_space (answer_innerText browser (page (world d))) = false ->
  clipboard_api browser = None ->
  copyAnswer browser env d
  = (Throw (JsError TypeErrorK
              (fault_message env (ReadPropertyOf VUndefined (lit "writeText")))),
     d).
Proof.
  intros Hvisible Hapi. run_desk. rewrite truthy_trim, Hvisible.
  cbv beta iota delta [negb]. rewrite Hapi. reflexivity.
Qed.

Lemma copyAnswer_without_clipboard_witness :
  copyAnswer (Desktop.plain None) (Sample.env_with Sample.offline true)
    (Desktop.desk_of Sample.asking)
  = (Throw (JsError TypeErrorK (lit "Cannot read properties")),
     Desktop.desk_of Sample.asking).
Proof.
  apply (copyAnswer_without_clipboard (Desktop.plain None)
           (Sample.env_with Sample.offline true) (Desktop.desk_of Sample.asking));
    reflexivity.
Defined.

(** X22: copying right after clearing finds nothing to copy: in a browser
    that renders an empty answer as blank text, the clipboard keeps what
    it held and the warning replaces the message of the clearing. *)
Theorem copy_after_clear_finds_nothing browser env d :
  (forall p, answerContent_innerHTML p = [] ->
             all_space (answer_innerText browser p) = true) ->
  let both := bindD (lift clearAnswer) (fun _ => copyAnswer) in
  fst (both browser env d) = Normal tt
  /\ clipboard (snd (both browser env d)) = clipboard d
  /\ messageArea_innerHTML (page (world (snd (both browser env d))))
     = lit "<div class=" ++ dq ++ lit "warning" ++ dq ++ lit ">"
         ++ lit "Geen antwoord om te kopi" ++ e_diaeresis ++ lit "ren"
         ++ lit "</div>".
Proof.
  intros Hrender. cbv zeta. run_desk. rewrite truthy_trim.
  rewrite Hrender by reflexivity. repeat split.
Qed.

Lemma copy_after_clear_finds_nothing_witness :
  clipboard
    (snd (bindD (lift clearAnswer) (fun _ => copyAnswer)
            (Desktop.plain (Some Desktop.permits))
            (Sample.env_with Sample.offline true)
            (Desktop.desk_of Sample.asking)))
  = lit "eerder gekopieerd".
Proof.
  apply (copy_after_clear_finds_nothing
           (Desktop.plain (Some Desktop.permits))
           (Sample.env_with Sample.offline true) (Desktop.desk_of Sample.asking)).
  intros p Hempty. simpl. rewrite Hempty. reflexivity.
Defined.

(** ** The keyboard shortcut *)

(** X23: a key press in the question field starts a search only when the
    key is Enter with Ctrl held.  Then the default action is prevented,
    even when the question is blank and nothing is sent; the listener
    itself never throws.  Any other key press, Enter without Ctrl
    included, changes nothing and prevents nothing. *)
Theorem keydown_searches_on_ctrl_enter_only e env w :
  let shortcut := eqb (key e) (lit "Enter") && ctrlKey e in
  exists e',
    outcome (keydown_listener e) env w = Normal e'
    /\ defaultPrevented e' = shortcut || defaultPrevented e
    /\ requests (final (keydown_listener e) env w)
       = (if shortcut && negb (all_space (question_value (page w)))
          then requests w
                 ++ [POST_search (trim (question_value (page w)))
                       (trim (doctorInstructions_value (page w)))]
          else requests w)
    /\ (shortcut = false -> final (keydown_listener e) env w = w).
Proof.
  cbv zeta. unfold keydown_listener, final, outcome.
  destruct (eqb (key e) (lit "Enter") && ctrlKey e) eqn:Hshortcut.
  - cbv zeta. unfold bind, detached, ret.
    pose proof (performSearch_requests env w) as Hrequests.
    unfold final in Hrequests. rewrite truthy_trim in Hrequests.
    destruct (performSearch env w) as [r w1]. cbn [fst snd] in *.
    exists (preventDefault e). repeat split.
    + rewrite Hrequests. reflexivity.
    + discriminate.
  - exists e. cbn [fst snd ret]. repeat split.
Qed.

Lemma keydown_searches_on_ctrl_enter_only_witness :
  final (keydown_listener Desktop.plain_enter)
    (Sample.env_with (Sample.replying 200 (VObj Sample.griep_answer)) true)
    Sample.asking
  = Sample.asking.
Proof.
  destruct (keydown_searches_on_ctrl_enter_only Desktop.plain_enter
              (Sample.env_with (Sample.replying 200 (VObj Sample.griep_answer)) true)
              Sample.asking) as [e' [_ [_ [_ Hsame]]]].
  apply Hsame. reflexivity.
Defined.

(** ** Feedback *)

(** X24: a load that fails before a document is decoded shows the same
    fixed message whatever went wrong; the reason (the rejection, the
    status, or the decoding error) goes to the console only, and the rest
    of the page is as before. *)
Theorem load_failure_hides_reason env w :
  let logged e :=
    loadSettings env w
    = (Normal tt,
       {| page := set_messageArea_innerHTML
                    (message_markup "error" "Kon instellingen niet laden")
                    (page w);
          requests := requests w ++ [GET_settings];
          console := console w ++ [(lit "Failed to load settings:", e)] |}) in
  match network env (requests w) GET_settings with
  | Rejected e => logged e
  | Responded r =>
      if ok r then
        match json_outcome r with
        | Throw e => logged e
        | Normal _ => True
        end
      else
        logged (JsError ErrorK
                  (lit "HTTP error! status: " ++ decimal (status r)))
  end.
Proof.
  cbv zeta. unfold loadSettings. run. name_request GET_settings.
  destruct (network env (requests w) GET_settings) as [e | r]; run.
  - reflexivity.
  - destruct (ok r); run; [| reflexivity].
    destruct (json_outcome r) as [data | e]; [exact I | reflexivity].
Qed.

(** X25: no handler lets an error out: loading, saving, resetting,
    searching and clearing complete normally against every server, every
    user and every page. *)
Theorem handlers_never_reject env w :
  outcome loadSettings env w = Normal tt
  /\ outcome saveSettings env w = Normal tt
  /\ outcome resetSettings env w = Normal tt
  /\ outcome performSearch env w = Normal tt
  /\ outcome clearAnswer env w = Normal tt.
Proof.
  assert (H : forall handler : M unit,
             contained handler -> outcome handler env w = Normal tt).
  { intros handler Hc. destruct (Hc env w) as [[] Ha]. exact Ha. }
  repeat split.
  - apply H, loadSettings_contained.
  - apply H, saveSettings_contained.
  - apply H, resetSettings_contained.
  - apply H, performSearch_contained.
Qed.

Lemma resetSettings_reports env w :
  user_confirms env reset_question = true ->
  reports (final resetSettings env w).
Proof.
  intros Hyes. unfold resetSettings, final.
  rewrite run_confirm_bind, Hyes. cbn [negb]. cbv iota.
  apply try_catch_reports.
  - ends_with_message.
  - intros. apply handler_reports.
Qed.

(** X26: the user always gets an answer in the message area: every save,
    every confirmed reset and every search ends with a message showing,
    whatever the server did; a declined reset changes nothing. *)
Theorem actions_always_answer env w :
  reports (final saveSettings env w)
  /\ reports (final performSearch env w)
  /\ (if user_confirms env reset_question
      then reports (final resetSettings env w)
      else final resetSettings env w = w).
Proof.
  split; [apply saveSettings_reports | split].
  - destruct (all_space (question_value (page w))) eqn:Hq.
    + unfold performSearch, final. rewrite run_read_bind, run_read_bind.
      rewrite truthy_trim, Hq. cbn [negb]. cbv iota.
      exists (lit "error"), (lit "Vul eerst een vraag in."). reflexivity.
    + apply performSearch_reports. intros Hblank.
      apply trim_blank in Hblank. congruence.
  - destruct (user_confirms env reset_question) eqn:Hconfirm.
    + apply resetSettings_reports. exact Hconfirm.
    + unfold resetSettings, final. rewrite run_confirm_bind, Hconfirm.
      destruct w; reflexivity.
Qed.
